(** * build-icons.py: a shallow embedding of the icon generator

    The script is a straight line of library calls: [os.makedirs],
    [os.path.exists], [subprocess.run] on curl, Pillow's [Image.open],
    [Image.resize] and [Image.save], [print] and [exit].  It is embedded
    as a computation in a state-and-exception monad over a world made of
    a file system and a chronological trace of the library calls issued.

    What the outside decides (how Pillow decodes, resamples and encodes,
    what the curl transfer yields) is collected in an environment record
    [Env]; every theorem quantifies over it.  Paths are relative paths in
    normal form ([canonical]), keyed as written; permissions and links are
    outside the model, and so are asynchronous signals.  What standard
    output can encode is a [console]: [create_icon_from_favicon] is given
    on any console, and the script as a whole on one that encodes every
    line ([utf8]). *)

From Stdlib Require Import ZArith List.
From Stdlib.Strings Require Import Byte.
From stdpp Require Import gmap strings pretty list fin_maps.

Local Open Scope string_scope.
Local Open Scope Z_scope.
Local Open Scope list_scope.

(** ** Data model *)

Abbreviation bytes := (list Byte.byte).

(** A path names nothing, a regular file or a directory. *)
Inductive node :=
| File (content : bytes)
| Dir.

Abbreviation filesystem := (gmap string node).

(** Python exceptions: [SystemExit] derives from [BaseException] only, so
    an [except Exception] clause lets it through; everything the library
    calls raise derives from [Exception]. *)
Inductive pyexn :=
| SystemExit (code : Z)
| Exception (cls msg : string).

(** [Image.Resampling] *)
Inductive Resampling := NEAREST | BOX | BILINEAR | HAMMING | BICUBIC | LANCZOS.

Record Image := { im_size : Z * Z; im_data : bytes }.

(** What Pillow's encoder does with an image: it yields the file's bytes,
    or fails, either before the output file is opened ([flushed = None])
    or after ([flushed] holds what had reached the file). *)
Inductive encoded :=
| Encoded (out : bytes)
| EncodeError (msg : string) (flushed : option bytes).

(** What one curl transfer does: its exit code, and the bytes it stored
    in the [-o] file when it stored any. *)
Record transfer := { curl_exit : Z; curl_body : option bytes }.

(** [subprocess.CompletedProcess] *)
Record CompletedProcess := { args : list string; returncode : Z }.

Record Env := {
  pil_decode : bytes -> string + Image;
  pil_resample : Image -> Z * Z -> Resampling -> string + bytes;
  pil_encode : string -> Image -> encoded;
  (** [None]: no curl executable can be started. *)
  curl_transfer : string -> option transfer
}.

(** The library calls a run issues, in the order it issues them. *)
Inductive event :=
| EvMakedirs (name : string)
| EvExists (p : string)
| EvSpawn (argv : list string)
| EvOpen (p : string)
| EvResize (size : Z * Z) (resample : Resampling)
| EvSave (filename fmt : string)
| EvPrint (line : string).

Record world := { fs : filesystem; trace : list event }.

(** ** The monad: state passing with Python's exceptions *)

Inductive outcome (A : Type) :=
| Ret (a : A)
| Raise (e : pyexn).
Arguments Ret {A} a.
Arguments Raise {A} e.

Definition M (A : Type) : Type := world -> outcome A * world.

Definition ret {A} (a : A) : M A := fun w => (Ret a, w).

Definition bind {A B} (m : M A) (k : A -> M B) : M B :=
  fun w =>
    match m w with
    | (Ret a, w') => k a w'
    | (Raise e, w') => (Raise e, w')
    end.

Definition raise {A} (e : pyexn) : M A := fun w => (Raise e, w).

Notation "x <- m ;; k" := (bind m (fun x => k))
  (at level 100, m at next level, right associativity).
Notation "m ;;; k" := (bind m (fun _ => k))
  (at level 100, right associativity).

(** [try: body  except Exception as e: handler e] *)
Definition try_except_Exception {A} (body : M A) (handler : string -> M A) : M A :=
  fun w =>
    match body w with
    | (Raise (Exception _ msg), w') => handler msg w'
    | r => r
    end.

Definition emit (ev : event) : M unit :=
  fun w => (Ret tt, {| fs := fs w; trace := trace w ++ [ev] |}).

Definition get_fs : M filesystem := fun w => (Ret (fs w), w).

Definition put_fs (f : filesystem) : M unit :=
  fun w => (Ret tt, {| fs := f; trace := trace w |}).

(** The status the operating system sees: 0 when the script runs off its
    end, the argument of [exit], 1 for an uncaught exception. *)
Definition exit_status {A} (o : outcome A) : Z :=
  match o with
  | Ret _ => 0
  | Raise (SystemExit code) => Z.land code 255
  | Raise (Exception _ _) => 1
  end.

(** ** Paths *)

(** The proper ancestors of a relative path, outermost first:
    ["a/b/c"] has ["a"] and ["a/b"]. *)
Fixpoint ancestors_from (pre s : string) : list string :=
  match s with
  | EmptyString => []
  | String c r =>
      if Ascii.eqb c (Ascii.ascii_of_nat 47)
      then (if String.eqb pre "" then [] else [pre])
             ++ ancestors_from (pre +:+ "/") r
      else ancestors_from (pre +:+ String c "") r
  end.

Definition ancestors (p : string) : list string := ancestors_from "" p.

(** [os.path.dirname], [None] for a path directly under the working
    directory. *)
Definition parent (p : string) : option string := last (ancestors p).

(** The components of a path, split at every slash. *)
Fixpoint components_from (cur s : string) : list string :=
  match s with
  | EmptyString => [cur]
  | String c r =>
      if Ascii.eqb c (Ascii.ascii_of_nat 47)
      then cur :: components_from "" r
      else components_from (cur +:+ String c "") r
  end.

Definition components (p : string) : list string := components_from "" p.

Definition component_ok (c : string) : bool :=
  negb (String.eqb c "") && negb (String.eqb c ".") && negb (String.eqb c "..")
  && Nat.leb (String.length c) 255
  && forallb (fun a => negb (Ascii.eqb a Ascii.zero)) (String.list_ascii_of_string c).

(** A relative path in normal form: components separated by single
    slashes, none of them empty, [.] or [..], none with a NUL byte or
    longer than a file name may be.  On these paths two strings name the
    same file only when they are equal, and [parent] is [os.path.dirname]. *)
Definition canonical (p : string) : bool :=
  forallb component_ok (components p) && Nat.leb (String.length p) 4095.

(** Why a path cannot be created or truncated as a regular file: the
    class and message of the [OSError], [None] when it can. *)
Definition open_write_error (p : string) (f : filesystem) : option (string * string) :=
  match f !! p with
  | Some Dir => Some ("IsADirectoryError", "[Errno 21] Is a directory: '" +:+ p +:+ "'")
  | _ =>
      match parent p with
      | None => None
      | Some d =>
          match f !! d with
          | Some Dir => None
          | Some (File _) =>
              Some ("NotADirectoryError", "[Errno 20] Not a directory: '" +:+ p +:+ "'")
          | None =>
              Some ("FileNotFoundError", "[Errno 2] No such file or directory: '" +:+ p +:+ "'")
          end
      end
  end.

(** ** The library calls *)

(** What standard output does with a line: it takes it ([None]), or its
    encoding cannot represent it and [print] raises [UnicodeEncodeError]
    with this message, having written nothing. *)
Definition console := string -> option string.

(** A console that encodes every line. *)
Definition utf8 : console := fun _ => None.

(** A console whose encoding is ASCII. *)
Definition ascii_stdout : console :=
  fun line =>
    if forallb (fun a => Nat.ltb (Ascii.nat_of_ascii a) 128) (String.list_ascii_of_string line)
    then None
    else Some "'ascii' codec can't encode character: ordinal not in range(128)".

Definition print_on (c : console) (line : string) : M unit :=
  match c line with
  | None => emit (EvPrint line)
  | Some why => raise (Exception "UnicodeEncodeError" why)
  end.

Definition print (line : string) : M unit := print_on utf8 line.

Definition py_exit {A} (code : Z) : M A := raise (SystemExit code).

Definition os_path_exists (p : string) : M bool :=
  emit (EvExists p) ;;;
  f <- get_fs ;;
  ret (match f !! p with Some _ => true | None => false end).

Definition os_mkdir (p : string) : M unit :=
  f <- get_fs ;;
  match f !! p with
  | Some _ => raise (Exception "FileExistsError" ("[Errno 17] File exists: '" +:+ p +:+ "'"))
  | None =>
      match open_write_error p f with
      | Some (cls, why) => raise (Exception cls why)
      | None => put_fs (<[p := Dir]> f)
      end
  end.

(** [os.makedirs(name, exist_ok=...)]: missing ancestors are made first;
    the error of the last [mkdir] is swallowed only with [exist_ok] and
    when the name is a directory already. *)
Fixpoint make_missing (ds : list string) : M unit :=
  match ds with
  | [] => ret tt
  | d :: rest =>
      f <- get_fs ;;
      match f !! d with
      | Some _ => make_missing rest
      | None => os_mkdir d ;;; make_missing rest
      end
  end.

Definition os_makedirs (name : string) (exist_ok : bool) : M unit :=
  emit (EvMakedirs name) ;;;
  make_missing (ancestors name) ;;;
  f <- get_fs ;;
  match f !! name with
  | Some Dir =>
      if exist_ok then ret tt
      else raise (Exception "FileExistsError" ("[Errno 17] File exists: '" +:+ name +:+ "'"))
  | _ => os_mkdir name
  end.

Section Script.

Context (E : Env).

(** [subprocess.run(argv)]: the one program the model knows is
    [curl -s <url> -o <out>]. *)
Definition subprocess_run (argv : list string) : M CompletedProcess :=
  emit (EvSpawn argv) ;;;
  match argv with
  | ["curl"; "-s"; url; "-o"; out] =>
      match curl_transfer E url with
      | None =>
          raise (Exception "FileNotFoundError" "[Errno 2] No such file or directory: 'curl'")
      | Some t =>
          f <- get_fs ;;
          match curl_body t with
          | None => ret {| args := argv; returncode := curl_exit t |}
          | Some body =>
              match open_write_error out f with
              | Some _ => ret {| args := argv; returncode := 23 |}
              | None =>
                  put_fs (<[out := File body]> f) ;;;
                  ret {| args := argv; returncode := curl_exit t |}
              end
          end
      end
  | _ => raise (Exception "FileNotFoundError" "[Errno 2] No such file or directory")
  end.

(** [Image.open(p)] *)
Definition Image_open (p : string) : M Image :=
  emit (EvOpen p) ;;;
  f <- get_fs ;;
  match f !! p with
  | None =>
      raise (Exception "FileNotFoundError" ("[Errno 2] No such file or directory: '" +:+ p +:+ "'"))
  | Some Dir =>
      raise (Exception "IsADirectoryError" ("[Errno 21] Is a directory: '" +:+ p +:+ "'"))
  | Some (File content) =>
      match pil_decode E content with
      | inl msg => raise (Exception "UnidentifiedImageError" msg)
      | inr img => ret img
      end
  end.

(** [img.resize(size, resample)]: the copy has the requested size. *)
Definition Image_resize (img : Image) (size : Z * Z) (resample : Resampling) : M Image :=
  emit (EvResize size resample) ;;;
  match pil_resample E img size resample with
  | inl msg => raise (Exception "ValueError" msg)
  | inr data => ret {| im_size := size; im_data := data |}
  end.

(** [img.save(filename, fmt)]: the file is opened (created or truncated)
    before the encoder runs; when the encoder then fails, a file that was
    created for it is removed again and an older one keeps what was
    flushed. *)
Definition Image_save (img : Image) (filename fmt : string) : M unit :=
  emit (EvSave filename fmt) ;;;
  f <- get_fs ;;
  match pil_encode E fmt img with
  | EncodeError msg None => raise (Exception "OSError" msg)
  | Encoded out =>
      match open_write_error filename f with
      | Some (cls, why) => raise (Exception cls why)
      | None => put_fs (<[filename := File out]> f)
      end
  | EncodeError msg (Some part) =>
      match open_write_error filename f with
      | Some (cls, why) => raise (Exception cls why)
      | None =>
          match f !! filename with
          | Some _ => put_fs (<[filename := File part]> f)
          | None => ret tt
          end ;;;
          raise (Exception "OSError" msg)
      end
  end.

(** ** The script *)

Definition FAVICON_SOURCE : string := "anava-favicon-source.png".

Definition FAVICON_URL : string := "https://anava.ai/favicon.ico".

Definition created_line (size : Z) (filename : string) : string :=
  "✓ Created " +:+ filename +:+ " (" +:+ pretty size +:+ "x" +:+ pretty size +:+ ")".

Definition failed_line (filename e : string) : string :=
  "❌ Failed to create " +:+ filename +:+ ": " +:+ e.

(** Lines 15-30, with standard output a console [c]. *)
Definition create_icon_from_favicon_on (c : console) (size : Z) (filename : string)
    : M bool :=
  try_except_Exception
    (img <- Image_open FAVICON_SOURCE ;;
     img_resized <- Image_resize img (size, size) LANCZOS ;;
     Image_save img_resized filename "PNG" ;;;
     print_on c (created_line size filename) ;;;
     ret true)
    (fun e =>
       print_on c (failed_line filename e) ;;;
       ret false).

(** Lines 15-30 on a console that encodes every line. *)
Definition create_icon_from_favicon (size : Z) (filename : string) : M bool :=
  create_icon_from_favicon_on utf8 size filename.

(** [call() and success]: the call on the left is evaluated first, and
    the flag on the right is the value only when the call was truthy. *)
Definition py_and (call : M bool) (success : bool) : M bool :=
  a <- call ;;
  ret (if a then success else a).

(** Lines 34-41: make sure the source favicon is there. *)
Definition ensure_source : M unit :=
  present <- os_path_exists FAVICON_SOURCE ;;
  if negb present then
    print ("❌ " +:+ FAVICON_SOURCE +:+ " not found. Downloading...") ;;;
    result <- subprocess_run ["curl"; "-s"; FAVICON_URL; "-o"; FAVICON_SOURCE] ;;
    (if negb (returncode result =? 0) then
       print "❌ Failed to download favicon" ;;;
       py_exit 1
     else ret tt) ;;;
    print ("✓ Downloaded " +:+ FAVICON_SOURCE)
  else ret tt.

(** Lines 44-47: the three icons. *)
Definition create_icons : M bool :=
  let success := true in
  success <- py_and (create_icon_from_favicon 16 "dist/icon16.png") success ;;
  success <- py_and (create_icon_from_favicon 48 "dist/icon48.png") success ;;
  success <- py_and (create_icon_from_favicon 128 "dist/icon128.png") success ;;
  ret success.

(** Lines 49-53: the verdict. *)
Definition report (success : bool) : M unit :=
  if success then
    print "✓ All icons created successfully from Anava favicon!"
  else
    print "❌ Some icons failed to create" ;;;
    py_exit 1.

(** Lines 44-53. *)
Definition icons_and_report : M unit :=
  success <- create_icons ;;
  report success.

(** The [if __name__ == '__main__':] block. *)
Definition main_block : M unit :=
  ensure_source ;;;
  icons_and_report.

(** The whole module, from its first statement. *)
Definition script : M unit :=
  os_makedirs "dist" true ;;;
  main_block.

(** ** Reading a run *)

(** The world after more calls were recorded. *)
Definition log (evs : list event) (w : world) : world :=
  {| fs := fs w; trace := trace w ++ evs |}.

(** The calls a computation issues when started in [w]. *)
Definition issued {A} (m : M A) (w : world) : list event :=
  drop (length (trace w)) (trace (snd (m w))).

(** What one call of [create_icon_from_favicon] comes to: the icon's
    bytes reached the file, or the call failed with a message after some
    further library calls, possibly leaving flushed bytes in an older
    file. *)
Inductive attempt :=
| Created (out : bytes)
| Failed (e : string) (calls : list event) (residue : option bytes).

Definition attempt_ok (a : attempt) : bool :=
  match a with Created _ => true | Failed _ _ _ => false end.

(** The attempt, decided by the file system the call starts from. *)
Definition attempt_of (size : Z) (filename : string) (f : filesystem) : attempt :=
  match f !! FAVICON_SOURCE with
  | None =>
      Failed ("[Errno 2] No such file or directory: '" +:+ FAVICON_SOURCE +:+ "'") [] None
  | Some Dir =>
      Failed ("[Errno 21] Is a directory: '" +:+ FAVICON_SOURCE +:+ "'") [] None
  | Some (File content) =>
      match pil_decode E content with
      | inl msg => Failed msg [] None
      | inr img =>
          match pil_resample E img (size, size) LANCZOS with
          | inl msg => Failed msg [EvResize (size, size) LANCZOS] None
          | inr data =>
              let calls := [EvResize (size, size) LANCZOS; EvSave filename "PNG"] in
              match pil_encode E "PNG" {| im_size := (size, size); im_data := data |},
                    open_write_error filename f with
              | EncodeError msg None, _ => Failed msg calls None
              | _, Some (_, why) => Failed why calls None
              | Encoded out, None => Created out
              | EncodeError msg (Some part), None =>
                  Failed msg calls
                    (match f !! filename with Some _ => Some part | None => None end)
              end
          end
      end
  end.

Definition attempt_fs (filename : string) (a : attempt) (f : filesystem) : filesystem :=
  match a with
  | Created out => <[filename := File out]> f
  | Failed _ _ (Some part) => <[filename := File part]> f
  | Failed _ _ None => f
  end.

Definition attempt_events (size : Z) (filename : string) (a : attempt) : list event :=
  match a with
  | Created _ =>
      [EvOpen FAVICON_SOURCE; EvResize (size, size) LANCZOS; EvSave filename "PNG";
       EvPrint (created_line size filename)]
  | Failed e calls _ =>
      EvOpen FAVICON_SOURCE :: calls ++ [EvPrint (failed_line filename e)]
  end.

Definition attempt_world (size : Z) (filename : string) (a : attempt) (w : world) : world :=
  {| fs := attempt_fs filename a (fs w);
     trace := trace w ++ attempt_events size filename a |}.

(** The icon a source file's bytes render to at one size: the resized
    image and its PNG encoding. *)
Definition render (content : bytes) (size : Z) : option (Image * bytes) :=
  match pil_decode E content with
  | inl _ => None
  | inr img =>
      match pil_resample E img (size, size) LANCZOS with
      | inl _ => None
      | inr data =>
          let resized := {| im_size := (size, size); im_data := data |} in
          match pil_encode E "PNG" resized with
          | Encoded out => Some (resized, out)
          | EncodeError _ _ => None
          end
      end
  end.

(** The source favicon is there but corrupt or unreadable: Pillow cannot
    open it, or opens it and cannot load its pixels at any size. *)
Definition source_unreadable (f : filesystem) : Prop :=
  match f !! FAVICON_SOURCE with
  | Some (File content) =>
      match pil_decode E content with
      | inl _ => True
      | inr img => ∀ size, ∃ msg, pil_resample E img (size, size) LANCZOS = inl msg
      end
  | Some Dir => True
  | None => False
  end.

(** The download did not come through: curl could not be started or
    exited with a status other than 0. *)
Definition fetch_failed : Prop :=
  match curl_transfer E FAVICON_URL with
  | None => True
  | Some t => curl_exit t ≠ 0
  end.

(** Lines 10-41: all that runs before the first resize operation. *)
Definition before_icons : M unit :=
  os_makedirs "dist" true ;;;
  ensure_source.

End Script.

(** The command line of the download. *)
Definition curl_argv : list string :=
  ["curl"; "-s"; FAVICON_URL; "-o"; FAVICON_SOURCE].

(** The three calls of lines 45-47, from the world the first starts in. *)
Definition after16 (E : Env) (w : world) : world :=
  attempt_world 16 "dist/icon16.png" (attempt_of E 16 "dist/icon16.png" (fs w)) w.

Definition after48 (E : Env) (w : world) : world :=
  let w1 := after16 E w in
  attempt_world 48 "dist/icon48.png" (attempt_of E 48 "dist/icon48.png" (fs w1)) w1.

Definition after128 (E : Env) (w : world) : world :=
  let w2 := after48 E w in
  attempt_world 128 "dist/icon128.png" (attempt_of E 128 "dist/icon128.png" (fs w2)) w2.

Definition icon_paths : list string :=
  ["dist/icon16.png"; "dist/icon48.png"; "dist/icon128.png"].

(** The kinds of call lines 44-53 issue. *)
Definition icon_phase_event (ev : event) : Prop :=
  ev = EvOpen FAVICON_SOURCE
  ∨ (∃ size, ev = EvResize (size, size) LANCZOS)
  ∨ (∃ p, p ∈ icon_paths ∧ ev = EvSave p "PNG")
  ∨ ∃ line, ev = EvPrint line.

(** The source is a file Pillow can decode, resize to the three sizes
    and encode as PNG. *)
Definition valid_source (E : Env) (f : filesystem) : Prop :=
  ∃ content,
    f !! FAVICON_SOURCE = Some (File content)
    ∧ is_Some (render E content 16)
    ∧ is_Some (render E content 48)
    ∧ is_Some (render E content 128).

(** After the run a regular file sits at each of the three icon paths. *)
Definition produces_three_icons (E : Env) (w : world) : Prop :=
  ∀ p, p ∈ icon_paths → ∃ out, fs (snd (script E w)) !! p = Some (File out).

(** The path an event may create or change. *)
Definition written_path (ev : event) : option string :=
  match ev with
  | EvMakedirs name => Some name
  | EvSpawn ["curl"; "-s"; _; "-o"; out] => Some out
  | EvSave filename _ => Some filename
  | _ => None
  end.

Definition is_spawn (ev : event) : bool :=
  match ev with EvSpawn _ => true | _ => false end.

(** The calls that make up a resize operation. *)
Definition is_icon_call (ev : event) : bool :=
  match ev with
  | EvOpen _ | EvResize _ _ | EvSave _ _ => true
  | _ => false
  end.

Definition opens (t : list event) : list string :=
  omap (λ ev, match ev with EvOpen p => Some p | _ => None end) t.

Definition prints (t : list event) : list string :=
  omap (λ ev, match ev with EvPrint line => Some line | _ => None end) t.

Definition is_dir (f : filesystem) (p : string) : Prop := f !! p = Some Dir.

(** The calls of one resize operation start by opening the source and
    end with the line that reports how it went. *)
Definition attempt_reported (size : Z) (filename : string) (r : bool)
    (new : list event) : Prop :=
  head new = Some (EvOpen FAVICON_SOURCE) ∧
  ∃ e, last new =
         Some (EvPrint (if r then created_line size filename
                        else failed_line filename e)).

(** The command lines of the processes a trace started. *)
Definition spawns (t : list event) : list (list string) :=
  omap (λ ev, match ev with EvSpawn argv => Some argv | _ => None end) t.

(** The targets of the [save] calls in a trace. *)
Definition saves (t : list event) : list string :=
  omap (λ ev, match ev with EvSave filename _ => Some filename | _ => None end) t.

(** The world right after [os.makedirs('dist', exist_ok=True)] returned. *)
Definition dist_made (w : world) : world :=
  {| fs := <["dist" := Dir]> (fs w); trace := trace w ++ [EvMakedirs "dist"] |}.

(** The last line of a run in which every icon was made. *)
Definition all_created_line : string :=
  "✓ All icons created successfully from Anava favicon!".

(** ** A small concrete environment, for running the model *)

Module Toy.

(** Any non-empty file decodes, to a 32x32 image. *)
Definition decode (content : bytes) : string + Image :=
  match content with
  | [] => inl "cannot identify image file"
  | _ => inr {| im_size := (32, 32); im_data := content |}
  end.

Definition resample (img : Image) (size : Z * Z) (r : Resampling) : string + bytes :=
  if (0 <? fst size) && (0 <? snd size)
  then inr (repeat x2a (Z.to_nat (fst size)))
  else inl "height and width must be > 0".

Definition encode (fmt : string) (img : Image) : encoded :=
  if String.eqb fmt "PNG"
  then Encoded (x89 :: x50 :: x4e :: x47 :: im_data img)
  else EncodeError ("unknown format " +:+ fmt) None.

Definition env (net : option transfer) : Env :=
  {| pil_decode := decode;
     pil_resample := resample;
     pil_encode := encode;
     curl_transfer := λ _, net |}.

Definition favicon : bytes := [x00; x00; x01; x00].

Definition online : Env := env (Some {| curl_exit := 0; curl_body := Some favicon |}).

(** Exit status 6: curl could not resolve the host. *)
Definition offline : Env := env (Some {| curl_exit := 6; curl_body := None |}).

Definition with_source : world :=
  {| fs := {[ "anava-favicon-source.png" := File favicon ]}; trace := [] |}.

Definition corrupt_source : world :=
  {| fs := {[ "anava-favicon-source.png" := File [] ]}; trace := [] |}.

Definition empty_directory : world := {| fs := ∅; trace := [] |}.

(** A regular file sits where the output directory should go. *)
Definition dist_is_a_file : world :=
  {| fs := {[ "dist" := File [] ]}; trace := [] |}.

(** A directory sits where the smallest icon should go. *)
Definition icon16_is_a_directory : world :=
  {| fs := <[ "dist/icon16.png" := Dir ]>
             (<[ "dist" := Dir ]>
                {[ "anava-favicon-source.png" := File favicon ]});
     trace := [] |}.

(** curl exits 0 and stores nothing. *)
Definition empty_reply : Env := env (Some {| curl_exit := 0; curl_body := None |}).

(** Exit status 18: the transfer broke off, two bytes had arrived. *)
Definition cut_off : Env :=
  env (Some {| curl_exit := 18; curl_body := Some [x00; x00] |}).

(** The favicon and the output directory, nothing else. *)
Definition ready : world :=
  {| fs := <[ "dist" := Dir ]> {[ "anava-favicon-source.png" := File favicon ]};
     trace := [] |}.

End Toy.

(** ** How the calls run *)

Ltac unfold_calls :=
  unfold create_icon_from_favicon, create_icon_from_favicon_on,
    try_except_Exception, Image_open,
    Image_resize, Image_save, subprocess_run, os_path_exists, os_mkdir,
    print, print_on, utf8, py_exit, py_and, bind, ret, raise, emit, get_fs,
    put_fs in *.

Ltac split_cases := repeat (simpl in *; case_match; simplify_eq).

Lemma ancestors_dist : ancestors "dist" = [].
Proof. reflexivity. Qed.

Lemma parent_source : parent FAVICON_SOURCE = None.
Proof. reflexivity. Qed.

Lemma icon_path_fresh p :
  p ∈ icon_paths → p ≠ FAVICON_SOURCE ∧ p ≠ "dist".
Proof.
  unfold icon_paths. rewrite !elem_of_cons, elem_of_nil.
  intros [-> | [-> | [-> | []]]]; split; discriminate.
Qed.

(** [os.makedirs('dist', exist_ok=True)], case by case. *)
Lemma makedirs_dist w :
  os_makedirs "dist" true w =
    match fs w !! "dist" with
    | Some (File _) =>
        (Raise (Exception "FileExistsError" "[Errno 17] File exists: 'dist'"),
         log [EvMakedirs "dist"] w)
    | Some Dir => (Ret tt, log [EvMakedirs "dist"] w)
    | None =>
        (Ret tt, {| fs := <["dist" := Dir]> (fs w);
                    trace := trace w ++ [EvMakedirs "dist"] |})
    end.
Proof.
  destruct w as [f t]. unfold os_makedirs, open_write_error.
  rewrite ancestors_dist. unfold_calls. unfold open_write_error, log. simpl.
  destruct (f !! "dist") as [[c|]|] eqn:Hd; simpl; rewrite ?Hd; reflexivity.
Qed.

Section Runs.

Context (E : Env).

(** One call of [create_icon_from_favicon] always returns, and what it
    returns and leaves behind is the attempt read off the file system. *)
Lemma create_icon_eq size filename w :
  create_icon_from_favicon E size filename w =
    let a := attempt_of E size filename (fs w) in
    (Ret (attempt_ok a), attempt_world size filename a w).
Proof.
  destruct w as [f t]. unfold attempt_world, attempt_of. unfold_calls.
  split_cases; simpl; rewrite <- ?app_assoc; reflexivity.
Qed.

Lemma attempt_fs_other filename a f p :
  p ≠ filename → attempt_fs filename a f !! p = f !! p.
Proof.
  intros Hne. destruct a as [out | e calls [part|]]; simpl;
    rewrite ?lookup_insert_ne; done.
Qed.

(** The attempt looks at three places only: the source, the target and
    the target's directory. *)
Lemma attempt_of_local size filename d (f g : filesystem) :
  parent filename = Some d →
  g !! FAVICON_SOURCE = f !! FAVICON_SOURCE →
  g !! d = f !! d →
  g !! filename = f !! filename →
  attempt_of E size filename g = attempt_of E size filename f.
Proof.
  intros Hp Hs Hd Hf. unfold attempt_of, open_write_error.
  rewrite Hp, Hs, Hd, Hf. reflexivity.
Qed.

(** Once made, an attempt repeats itself: on the file system it left
    behind, the same call comes to the same attempt. *)
Lemma attempt_settled size filename d (f : filesystem) :
  filename ≠ FAVICON_SOURCE → parent filename = Some d → d ≠ filename →
  let a := attempt_of E size filename f in
  attempt_of E size filename (attempt_fs filename a f) = a.
Proof.
  intros Hs Hp Hd a. unfold attempt_of, open_write_error. rewrite Hp.
  rewrite (attempt_fs_other filename a f FAVICON_SOURCE) by done.
  rewrite (attempt_fs_other filename a f d) by done.
  subst a. unfold attempt_of, open_write_error. rewrite Hp.
  destruct (f !! FAVICON_SOURCE) as [[content|]|]; [|done..].
  destruct (pil_decode E content) as [|img]; [done|].
  destruct (pil_resample E img (size, size) LANCZOS) as [|data]; [done|].
  destruct (pil_encode E "PNG" _) as [out|msg [part|]];
    destruct (f !! filename) as [[c|]|] eqn:Hf;
    destruct (f !! d) as [[c'|]|]; simpl;
    rewrite ?lookup_insert_eq, ?Hf; done.
Qed.

Lemma attempt_fs_same filename a (f g : filesystem) :
  g !! filename = attempt_fs filename a f !! filename →
  attempt_fs filename a g = g.
Proof.
  destruct a as [out | e calls [part|]]; simpl; [| |done];
    rewrite lookup_insert_eq; intros H; by apply insert_id.
Qed.

(** Repeating a call on a file system that agrees, where the call looks,
    with the one its first run left: same attempt, nothing changes. *)
Lemma attempt_rerun size filename d (f g : filesystem) :
  filename ≠ FAVICON_SOURCE → parent filename = Some d → d ≠ filename →
  let a := attempt_of E size filename f in
  g !! FAVICON_SOURCE = f !! FAVICON_SOURCE →
  g !! d = f !! d →
  g !! filename = attempt_fs filename a f !! filename →
  attempt_of E size filename g = a ∧ attempt_fs filename a g = g.
Proof.
  intros Hs Hp Hd a Hgs Hgd Hgf. split.
  - transitivity (attempt_of E size filename (attempt_fs filename a f)).
    + apply (attempt_of_local size filename d); [done| | |done];
        by rewrite attempt_fs_other.
    + by apply (attempt_settled size filename d).
  - by apply (attempt_fs_same filename a f g).
Qed.

Lemma ensure_source_present w n :
  fs w !! FAVICON_SOURCE = Some n →
  ensure_source E w = (Ret tt, log [EvExists FAVICON_SOURCE] w).
Proof.
  intros H. destruct w as [f t]. unfold ensure_source, log. unfold_calls.
  simpl in *. rewrite H. reflexivity.
Qed.

(** The download branch, case by case. *)
Lemma ensure_source_absent w :
  fs w !! FAVICON_SOURCE = None →
  ensure_source E w =
    let asked :=
      [EvExists FAVICON_SOURCE;
       EvPrint ("❌ " +:+ FAVICON_SOURCE +:+ " not found. Downloading...");
       EvSpawn curl_argv] in
    match curl_transfer E FAVICON_URL with
    | None =>
        (Raise (Exception "FileNotFoundError" "[Errno 2] No such file or directory: 'curl'"),
         log asked w)
    | Some t =>
        let stored :=
          match curl_body t with
          | Some body => <[FAVICON_SOURCE := File body]> (fs w)
          | None => fs w
          end in
        if curl_exit t =? 0
        then (Ret tt,
              {| fs := stored;
                 trace := trace w ++ asked ++ [EvPrint ("✓ Downloaded " +:+ FAVICON_SOURCE)] |})
        else (Raise (SystemExit 1),
              {| fs := stored;
                 trace := trace w ++ asked ++ [EvPrint "❌ Failed to download favicon"] |})
    end.
Proof.
  intros H. destruct w as [f t]. unfold ensure_source, log, curl_argv. unfold_calls.
  unfold open_write_error. rewrite parent_source.
  simpl in *. rewrite H. simpl.
  destruct (curl_transfer E FAVICON_URL) as [[rc [body|]]|]; simpl;
    rewrite ?H; simpl; rewrite <- ?app_assoc; try reflexivity;
    destruct (rc =? 0); simpl; rewrite <- ?app_assoc; reflexivity.
Qed.

(** Lines 44-47: all three calls run, one after the other, and the flag
    is the conjunction of what they returned. *)
Lemma create_icons_eq w :
  create_icons E w =
    (Ret (attempt_ok (attempt_of E 16 "dist/icon16.png" (fs w))
          && attempt_ok (attempt_of E 48 "dist/icon48.png" (fs (after16 E w)))
          && attempt_ok (attempt_of E 128 "dist/icon128.png" (fs (after48 E w)))),
     after128 E w).
Proof.
  unfold create_icons, py_and, bind, ret.
  rewrite create_icon_eq. cbv beta iota zeta. fold (after16 E w).
  rewrite create_icon_eq. cbv beta iota zeta. fold (after48 E w).
  rewrite create_icon_eq. cbv beta iota zeta. fold (after128 E w).
  repeat destruct (attempt_ok _); reflexivity.
Qed.

Lemma report_eq success w :
  report success w =
    if success
    then (Ret tt, log [EvPrint "✓ All icons created successfully from Anava favicon!"] w)
    else (Raise (SystemExit 1), log [EvPrint "❌ Some icons failed to create"] w).
Proof. destruct success; reflexivity. Qed.

End Runs.

Section Phases.

Context (E : Env).

Lemma issued_app {A} (m : M A) w (new : list event) :
  trace (snd (m w)) = trace w ++ new → issued m w = new.
Proof. intros H. unfold issued. rewrite H. apply drop_app_length. Qed.

Lemma script_split w :
  script E w =
    match before_icons E w with
    | (Ret _, w0) => icons_and_report E w0
    | (Raise e, w0) => (Raise e, w0)
    end.
Proof.
  unfold script, main_block, before_icons, bind.
  destruct (os_makedirs "dist" true w) as [[[]|e] w0]; reflexivity.
Qed.

Lemma main_block_split w :
  main_block E w =
    match ensure_source E w with
    | (Ret _, w0) => icons_and_report E w0
    | (Raise e, w0) => (Raise e, w0)
    end.
Proof. reflexivity. Qed.

Lemma icons_and_report_eq w :
  icons_and_report E w =
    if attempt_ok (attempt_of E 16 "dist/icon16.png" (fs w))
       && attempt_ok (attempt_of E 48 "dist/icon48.png" (fs (after16 E w)))
       && attempt_ok (attempt_of E 128 "dist/icon128.png" (fs (after48 E w)))
    then (Ret tt,
          log [EvPrint "✓ All icons created successfully from Anava favicon!"]
            (after128 E w))
    else (Raise (SystemExit 1),
          log [EvPrint "❌ Some icons failed to create"] (after128 E w)).
Proof.
  unfold icons_and_report, bind. rewrite create_icons_eq, report_eq. reflexivity.
Qed.

(** Whatever stops the script before the icons stops it with status 1. *)
Lemma ensure_source_raises w e w0 :
  ensure_source E w = (Raise e, w0) → exit_status (Raise (A:=unit) e) = 1.
Proof.
  destruct (fs w !! FAVICON_SOURCE) as [n|] eqn:Hs.
  - rewrite (ensure_source_present E w n Hs). intros; simplify_eq.
  - rewrite (ensure_source_absent E w Hs). cbv zeta.
    destruct (curl_transfer E FAVICON_URL) as [t|]; [destruct (curl_exit t =? 0)|];
      intros; simplify_eq; reflexivity.
Qed.

Lemma before_icons_raises w e w0 :
  before_icons E w = (Raise e, w0) → exit_status (Raise (A:=unit) e) = 1.
Proof.
  unfold before_icons, bind. rewrite makedirs_dist.
  destruct (fs w !! "dist") as [[c|]|].
  - intros; simplify_eq; reflexivity.
  - destruct (ensure_source E _) as [[[]|e'] w'] eqn:He; intros; simplify_eq.
    eapply ensure_source_raises, He.
  - destruct (ensure_source E _) as [[[]|e'] w'] eqn:He; intros; simplify_eq.
    eapply ensure_source_raises, He.
Qed.

Lemma fs_after16_other w p :
  p ≠ "dist/icon16.png" → fs (after16 E w) !! p = fs w !! p.
Proof. intros. unfold after16. simpl. by rewrite attempt_fs_other. Qed.

Lemma fs_after48_other w p :
  p ≠ "dist/icon16.png" → p ≠ "dist/icon48.png" →
  fs (after48 E w) !! p = fs w !! p.
Proof.
  intros. unfold after48. simpl.
  rewrite attempt_fs_other by done. by apply fs_after16_other.
Qed.

(** The three calls leave every path but their own targets alone. *)
Lemma fs_after128_other w p :
  p ∉ icon_paths → fs (after128 E w) !! p = fs w !! p.
Proof.
  unfold icon_paths. rewrite !not_elem_of_cons. intros (H1 & H2 & H3 & _).
  unfold after128. simpl.
  rewrite attempt_fs_other by done. by apply fs_after48_other.
Qed.

Lemma trace_after128 w :
  trace (after128 E w) =
    trace w
    ++ attempt_events 16 "dist/icon16.png" (attempt_of E 16 "dist/icon16.png" (fs w))
    ++ attempt_events 48 "dist/icon48.png"
         (attempt_of E 48 "dist/icon48.png" (fs (after16 E w)))
    ++ attempt_events 128 "dist/icon128.png"
         (attempt_of E 128 "dist/icon128.png" (fs (after48 E w))).
Proof. unfold after128, after48, after16. simpl. by rewrite <- !app_assoc. Qed.

(** The library calls of one attempt: open the source, resize to the
    square with LANCZOS, save to the target as PNG, report. *)
Lemma attempt_events_spec size filename (f : filesystem) ev :
  ev ∈ attempt_events size filename (attempt_of E size filename f) →
  ev = EvOpen FAVICON_SOURCE ∨ ev = EvResize (size, size) LANCZOS
  ∨ ev = EvSave filename "PNG" ∨ ∃ line, ev = EvPrint line.
Proof.
  unfold attempt_of. repeat case_match; simpl;
    rewrite ?elem_of_cons, ?elem_of_nil; intros Hev;
    repeat (destruct Hev as [Hev|Hev]; [eauto 6|]); try done; eauto 6.
Qed.

Lemma attempt_reported_of size filename (a : attempt) :
  attempt_reported size filename (attempt_ok a) (attempt_events size filename a).
Proof.
  destruct a as [out | e calls residue]; split; try reflexivity.
  - exists "". reflexivity.
  - exists e. cbn [attempt_events attempt_ok].
    change (EvOpen FAVICON_SOURCE :: calls ++ [EvPrint (failed_line filename e)])
      with ((EvOpen FAVICON_SOURCE :: calls) ++ [EvPrint (failed_line filename e)]).
    apply last_snoc.
Qed.

Lemma opens_app (t1 t2 : list event) : opens (t1 ++ t2) = opens t1 ++ opens t2.
Proof. apply omap_app. Qed.

(** With a corrupt or unreadable source every attempt fails before
    [save], whatever the size and the target, and writes nothing. *)
Lemma attempt_unreadable (f : filesystem) size filename :
  source_unreadable E f →
  ∃ e calls,
    attempt_of E size filename f = Failed e calls None
    ∧ opens calls = [] ∧ prints calls = [].
Proof.
  unfold source_unreadable, attempt_of.
  destruct (f !! FAVICON_SOURCE) as [[content|]|]; [|eauto|done].
  destruct (pil_decode E content) as [msg|img]; [eauto|].
  intros H. destruct (H size) as [msg ->]. eauto.
Qed.

Lemma main_block_unreadable w :
  source_unreadable E (fs w) →
  ∃ new e16 e48 e128,
    main_block E w = (Raise (SystemExit 1), log new w)
    ∧ opens new = [FAVICON_SOURCE; FAVICON_SOURCE; FAVICON_SOURCE]
    ∧ prints new =
        [failed_line "dist/icon16.png" e16;
         failed_line "dist/icon48.png" e48;
         failed_line "dist/icon128.png" e128;
         "❌ Some icons failed to create"].
Proof.
  intros Hu.
  destruct (attempt_unreadable _ 16 "dist/icon16.png" Hu) as (e16 & c16 & A16 & O16 & P16).
  destruct (attempt_unreadable _ 48 "dist/icon48.png" Hu) as (e48 & c48 & A48 & O48 & P48).
  destruct (attempt_unreadable _ 128 "dist/icon128.png" Hu)
    as (e128 & c128 & A128 & O128 & P128).
  assert (∃ n, fs w !! FAVICON_SOURCE = Some n) as [n Hn].
  { unfold source_unreadable in Hu.
    destruct (fs w !! FAVICON_SOURCE); [eauto|done]. }
  exists ([EvExists FAVICON_SOURCE]
          ++ (EvOpen FAVICON_SOURCE :: c16 ++ [EvPrint (failed_line "dist/icon16.png" e16)])
          ++ (EvOpen FAVICON_SOURCE :: c48 ++ [EvPrint (failed_line "dist/icon48.png" e48)])
          ++ (EvOpen FAVICON_SOURCE :: c128 ++ [EvPrint (failed_line "dist/icon128.png" e128)])
          ++ [EvPrint "❌ Some icons failed to create"]), e16, e48, e128.
  split; [|split].
  - rewrite main_block_split, (ensure_source_present E w n Hn), icons_and_report_eq.
    unfold after128, after48, after16, attempt_world, log. cbn [fs trace].
    rewrite A16. cbn [attempt_fs]. rewrite A48. cbn [attempt_fs]. rewrite A128.
    cbn [attempt_fs attempt_ok attempt_events andb fs trace].
    by rewrite <- !app_assoc.
  - unfold opens in *. repeat (rewrite ?omap_app; simpl).
    rewrite O16, O48, O128. reflexivity.
  - unfold prints in *. repeat (rewrite ?omap_app; simpl).
    rewrite P16, P48, P128. reflexivity.
Qed.

(** The script is its first statement followed by the main block. *)
Lemma script_after_makedirs w :
  script E w =
    match fs w !! "dist" with
    | Some (File _) =>
        (Raise (Exception "FileExistsError" "[Errno 17] File exists: 'dist'"),
         log [EvMakedirs "dist"] w)
    | Some Dir => main_block E (log [EvMakedirs "dist"] w)
    | None =>
        main_block E {| fs := <["dist" := Dir]> (fs w);
                        trace := trace w ++ [EvMakedirs "dist"] |}
    end.
Proof.
  unfold script, bind. rewrite makedirs_dist.
  destruct (fs w !! "dist") as [[c|]|]; reflexivity.
Qed.

(** The main block when the source is missing and the download fails. *)
Lemma main_block_fetch_failed w :
  fs w !! FAVICON_SOURCE = None → fetch_failed E →
  ∃ e stored,
    main_block E w =
      (Raise e,
       {| fs := stored;
          trace := trace w
            ++ [EvExists FAVICON_SOURCE;
                EvPrint ("❌ " +:+ FAVICON_SOURCE +:+ " not found. Downloading...");
                EvSpawn curl_argv]
            ++ match curl_transfer E FAVICON_URL with
               | None => []
               | Some _ => [EvPrint "❌ Failed to download favicon"]
               end |})
    ∧ exit_status (Raise (A:=unit) e) = 1
    ∧ ∀ p, p ≠ FAVICON_SOURCE → stored !! p = fs w !! p.
Proof.
  intros Hs Hf. rewrite main_block_split, (ensure_source_absent E w Hs).
  cbv zeta. unfold fetch_failed in Hf.
  destruct (curl_transfer E FAVICON_URL) as [t|].
  - apply Z.eqb_neq in Hf. rewrite Hf.
    eexists _, _. split; [reflexivity|]. split; [reflexivity|].
    intros p Hp. destruct (curl_body t); [by rewrite lookup_insert_ne|done].
  - eexists _, _. split; [unfold log; by rewrite app_nil_r|].
    split; [reflexivity|done].
Qed.

(** What lines 44-53 issue: the calls of the three attempts, then the
    verdict. *)
Lemma icons_and_report_trace w :
  ∃ verdict,
    trace (snd (icons_and_report E w)) =
      trace w
      ++ attempt_events 16 "dist/icon16.png" (attempt_of E 16 "dist/icon16.png" (fs w))
      ++ attempt_events 48 "dist/icon48.png"
           (attempt_of E 48 "dist/icon48.png" (fs (after16 E w)))
      ++ attempt_events 128 "dist/icon128.png"
           (attempt_of E 128 "dist/icon128.png" (fs (after48 E w)))
      ++ [EvPrint verdict].
Proof.
  rewrite icons_and_report_eq.
  destruct (_ && _); eexists; unfold log; cbn [snd trace];
    rewrite trace_after128; by rewrite <- !app_assoc.
Qed.

Lemma icons_and_report_fs w :
  fs (snd (icons_and_report E w)) = fs (after128 E w).
Proof. rewrite icons_and_report_eq. by destruct (_ && _). Qed.

Lemma attempt_phase_event size filename (f : filesystem) ev :
  filename ∈ icon_paths →
  ev ∈ attempt_events size filename (attempt_of E size filename f) →
  icon_phase_event ev.
Proof.
  intros Hin Hev. unfold icon_phase_event.
  destruct (attempt_events_spec size filename f ev Hev) as [-> | [-> | [-> | H]]];
    eauto 6.
Qed.

Lemma icons_and_report_events w ev :
  ev ∈ issued (icons_and_report E) w → icon_phase_event ev.
Proof.
  destruct (icons_and_report_trace w) as [verdict Ht].
  rewrite (issued_app _ _ _ Ht). rewrite !elem_of_app.
  intros [H | [H | [H | H]]].
  - eapply attempt_phase_event; [|exact H]. unfold icon_paths. by left.
  - eapply attempt_phase_event; [|exact H]. unfold icon_paths. by right; left.
  - eapply attempt_phase_event; [|exact H]. unfold icon_paths. by right; right; left.
  - apply list_elem_of_singleton in H as ->. unfold icon_phase_event. eauto 6.
Qed.

Lemma opens_attempt size filename (f : filesystem) :
  opens (attempt_events size filename (attempt_of E size filename f))
    = [FAVICON_SOURCE].
Proof. unfold attempt_of. repeat case_match; reflexivity. Qed.

Lemma icons_and_report_opens w :
  opens (issued (icons_and_report E) w)
    = [FAVICON_SOURCE; FAVICON_SOURCE; FAVICON_SOURCE].
Proof.
  destruct (icons_and_report_trace w) as [verdict Ht].
  rewrite (issued_app _ _ _ Ht), !opens_app, !opens_attempt. reflexivity.
Qed.

(** With the source in place the main block goes straight to the icons. *)
Lemma main_block_present w n :
  fs w !! FAVICON_SOURCE = Some n →
  main_block E w = icons_and_report E (log [EvExists FAVICON_SOURCE] w).
Proof.
  intros H. by rewrite main_block_split, (ensure_source_present E w n H).
Qed.

Lemma trace_grows_icons w :
  trace (snd (icons_and_report E w))
    = trace w ++ issued (icons_and_report E) w.
Proof.
  destruct (icons_and_report_trace w) as [verdict Ht].
  by rewrite (issued_app _ _ _ Ht), Ht.
Qed.

(** What the whole script issues when the source is in place. *)
Lemma script_present_issued w n :
  fs w !! FAVICON_SOURCE = Some n →
  ∃ w0,
    fs w0 !! FAVICON_SOURCE = Some n ∧
    (∀ p, p ≠ "dist" → fs w0 !! p = fs w !! p) ∧
    match fs w !! "dist" with
    | Some (File _) =>
        issued (script E) w = [EvMakedirs "dist"] ∧ fs (snd (script E w)) = fs w
    | _ =>
        issued (script E) w =
          [EvMakedirs "dist"; EvExists FAVICON_SOURCE]
          ++ issued (icons_and_report E) w0
        ∧ script E w = icons_and_report E w0
    end.
Proof.
  intros Hs. pose proof (script_after_makedirs w) as Hscript.
  destruct (fs w !! "dist") as [[c|]|] eqn:Hd;
    unfold issued at 1; rewrite !Hscript.
  - exists w. simpl. rewrite drop_app_length. by repeat split.
  - exists (log [EvMakedirs "dist"; EvExists FAVICON_SOURCE] w).
    split; [done|]. split; [done|].
    rewrite (main_block_present _ n) by done.
    unfold log. simpl. rewrite <- app_assoc. simpl.
    rewrite trace_grows_icons. simpl.
    rewrite <- app_assoc, drop_app_length. done.
  - exists {| fs := <["dist" := Dir]> (fs w);
              trace := trace w ++ [EvMakedirs "dist"; EvExists FAVICON_SOURCE] |}.
    simpl. split; [by rewrite lookup_insert_ne|].
    split; [intros; by rewrite lookup_insert_ne|].
    rewrite (main_block_present _ n) by (simpl; by rewrite lookup_insert_ne).
    unfold log. simpl. rewrite <- app_assoc. simpl.
    rewrite trace_grows_icons. simpl.
    rewrite <- app_assoc, drop_app_length. done.
Qed.

Lemma main_block_present_issued w n :
  fs w !! FAVICON_SOURCE = Some n →
  issued (main_block E) w =
    EvExists FAVICON_SOURCE
    :: issued (icons_and_report E) (log [EvExists FAVICON_SOURCE] w).
Proof.
  intros Hs. unfold issued at 1. rewrite (main_block_present w n Hs).
  rewrite trace_grows_icons. unfold log at 1. simpl.
  by rewrite <- app_assoc, drop_app_length.
Qed.

Lemma script_present_event w n ev :
  fs w !! FAVICON_SOURCE = Some n →
  ev ∈ issued (script E) w →
  ev = EvMakedirs "dist" ∨ ev = EvExists FAVICON_SOURCE ∨ icon_phase_event ev.
Proof.
  intros Hs. destruct (script_present_issued w n Hs) as (w0 & _ & _ & H).
  destruct (fs w !! "dist") as [[c|]|]; destruct H as [-> _];
    rewrite ?elem_of_app, ?elem_of_cons, ?elem_of_nil;
    intros Hev; destruct_or?; eauto using icons_and_report_events; done.
Qed.

Lemma icon_phase_event_quiet ev :
  icon_phase_event ev →
  is_spawn ev = false ∧ written_path ev ≠ Some FAVICON_SOURCE.
Proof.
  intros [-> | [[size ->] | [(p & Hp & ->) | [line ->]]]]; split; try done.
  simpl. intros [= ->]. by destruct (icon_path_fresh _ Hp).
Qed.

(** The main block touches the source and the three icons, nothing else. *)
Lemma main_block_keeps w p :
  p ≠ FAVICON_SOURCE → p ∉ icon_paths →
  fs (snd (main_block E w)) !! p = fs w !! p.
Proof.
  intros Hp Hi. destruct (fs w !! FAVICON_SOURCE) as [n|] eqn:Hs.
  - rewrite (main_block_present w n Hs), icons_and_report_fs.
    by rewrite fs_after128_other.
  - rewrite main_block_split, (ensure_source_absent E w Hs). cbv zeta.
    destruct (curl_transfer E FAVICON_URL) as [t|]; [|done].
    assert (match curl_body t with
            | Some body => <[FAVICON_SOURCE:=File body]> (fs w)
            | None => fs w
            end !! p = fs w !! p) as Hst.
    { destruct (curl_body t); [by rewrite lookup_insert_ne|done]. }
    destruct (curl_exit t =? 0); [|done].
    by rewrite icons_and_report_fs, fs_after128_other.
Qed.

(** A valid source and a target that can be written: the icon is made. *)
Lemma attempt_created size filename (f : filesystem) content resized out :
  f !! FAVICON_SOURCE = Some (File content) →
  render E content size = Some (resized, out) →
  parent filename = Some "dist" → f !! "dist" = Some Dir →
  f !! filename ≠ Some Dir →
  attempt_of E size filename f = Created out ∧ im_size resized = (size, size).
Proof.
  intros Hs Hr Hp Hd Hf. unfold attempt_of, open_write_error.
  rewrite Hs, Hp, Hd. unfold render in Hr.
  destruct (pil_decode E content) as [|img]; [done|].
  destruct (pil_resample E img (size, size) LANCZOS) as [|data]; [done|].
  destruct (pil_encode E "PNG" _) as [o|]; [|done].
  injection Hr as <- <-.
  destruct (f !! filename) as [[c|]|]; done.
Qed.

(** An icon that was made is the rendering of the source's bytes. *)
Lemma attempt_created_inv size filename (f : filesystem) out :
  attempt_of E size filename f = Created out →
  ∃ content resized,
    f !! FAVICON_SOURCE = Some (File content)
    ∧ render E content size = Some (resized, out).
Proof.
  unfold attempt_of.
  destruct (f !! FAVICON_SOURCE) as [[content|]|]; [|done..].
  destruct (pil_decode E content) as [|img] eqn:Hd; [done|].
  destruct (pil_resample E img (size, size) LANCZOS) as [|data] eqn:Hr; [done|].
  destruct (pil_encode E "PNG" _) as [o|msg [part|]] eqn:He;
    destruct (open_write_error filename f) as [[cls why]|]; try done.
  intros [= ->]. eexists content, _. split; [done|].
  unfold render. rewrite Hd, Hr, He. reflexivity.
Qed.

Lemma fs_after16 w :
  fs (after16 E w) =
    attempt_fs "dist/icon16.png" (attempt_of E 16 "dist/icon16.png" (fs w)) (fs w).
Proof. reflexivity. Qed.

Lemma fs_after48 w :
  fs (after48 E w) =
    attempt_fs "dist/icon48.png"
      (attempt_of E 48 "dist/icon48.png" (fs (after16 E w))) (fs (after16 E w)).
Proof. reflexivity. Qed.

Lemma fs_after128 w :
  fs (after128 E w) =
    attempt_fs "dist/icon128.png"
      (attempt_of E 128 "dist/icon128.png" (fs (after48 E w))) (fs (after48 E w)).
Proof. reflexivity. Qed.

Lemma source_not_icon : FAVICON_SOURCE ∉ icon_paths.
Proof. intros H. by destruct (icon_path_fresh _ H). Qed.

Lemma dist_not_icon : "dist" ∉ icon_paths.
Proof. intros H. by destruct (icon_path_fresh _ H). Qed.

(** Run on the file system they left, the three calls come to the same
    attempts and change nothing. *)
Lemma icons_rerun w0 v :
  fs v = fs (after128 E w0) →
  attempt_of E 16 "dist/icon16.png" (fs v)
    = attempt_of E 16 "dist/icon16.png" (fs w0)
  ∧ attempt_of E 48 "dist/icon48.png" (fs (after16 E v))
    = attempt_of E 48 "dist/icon48.png" (fs (after16 E w0))
  ∧ attempt_of E 128 "dist/icon128.png" (fs (after48 E v))
    = attempt_of E 128 "dist/icon128.png" (fs (after48 E w0))
  ∧ fs (after128 E v) = fs v.
Proof.
  intros Hv.
  destruct (attempt_rerun E 16 "dist/icon16.png" "dist" (fs w0) (fs v))
    as [A16 F16]; try done.
  { rewrite Hv. apply fs_after128_other, source_not_icon. }
  { rewrite Hv. apply fs_after128_other, dist_not_icon. }
  { rewrite Hv, fs_after128, fs_after48, <- fs_after16.
    by rewrite !attempt_fs_other by done. }
  assert (fs (after16 E v) = fs v) as E16.
  { by rewrite fs_after16, A16. }
  destruct (attempt_rerun E 48 "dist/icon48.png" "dist" (fs (after16 E w0)) (fs v))
    as [A48 F48]; try done.
  { rewrite Hv, fs_after128, fs_after48. by rewrite !attempt_fs_other by done. }
  { rewrite Hv, fs_after128, fs_after48. by rewrite !attempt_fs_other by done. }
  { rewrite Hv, fs_after128, <- fs_after48. by rewrite attempt_fs_other by done. }
  assert (fs (after48 E v) = fs v) as E48.
  { by rewrite fs_after48, E16, A48. }
  destruct (attempt_rerun E 128 "dist/icon128.png" "dist" (fs (after48 E w0)) (fs v))
    as [A128 F128]; try done.
  { rewrite Hv, fs_after128. by rewrite attempt_fs_other by done. }
  { rewrite Hv, fs_after128. by rewrite attempt_fs_other by done. }
  { by rewrite Hv, fs_after128. }
  split; [done|]. split; [by rewrite E16|]. split; [by rewrite E48|].
  by rewrite fs_after128, E48, A128.
Qed.

(** Lines 44-53 on a valid source, with [dist] in place and no directory
    where an icon goes. *)
Lemma icons_and_report_valid w content r16 o16 r48 o48 r128 o128 :
  fs w !! FAVICON_SOURCE = Some (File content) →
  render E content 16 = Some (r16, o16) →
  render E content 48 = Some (r48, o48) →
  render E content 128 = Some (r128, o128) →
  fs w !! "dist" = Some Dir →
  (∀ p, p ∈ icon_paths → fs w !! p ≠ Some Dir) →
  icons_and_report E w =
    (Ret tt,
     {| fs := <["dist/icon128.png" := File o128]>
                (<["dist/icon48.png" := File o48]>
                   (<["dist/icon16.png" := File o16]> (fs w)));
        trace := trace w
          ++ [EvOpen FAVICON_SOURCE; EvResize (16, 16) LANCZOS;
              EvSave "dist/icon16.png" "PNG";
              EvPrint (created_line 16 "dist/icon16.png");
              EvOpen FAVICON_SOURCE; EvResize (48, 48) LANCZOS;
              EvSave "dist/icon48.png" "PNG";
              EvPrint (created_line 48 "dist/icon48.png");
              EvOpen FAVICON_SOURCE; EvResize (128, 128) LANCZOS;
              EvSave "dist/icon128.png" "PNG";
              EvPrint (created_line 128 "dist/icon128.png");
              EvPrint "✓ All icons created successfully from Anava favicon!"] |}).
Proof.
  intros Hs H16 H48 H128 Hd Hfree.
  assert (attempt_of E 16 "dist/icon16.png" (fs w) = Created o16) as A16.
  { eapply attempt_created; eauto. apply Hfree. unfold icon_paths. by left. }
  assert (fs (after16 E w) = <["dist/icon16.png" := File o16]> (fs w)) as F16.
  { by rewrite fs_after16, A16. }
  assert (attempt_of E 48 "dist/icon48.png" (fs (after16 E w)) = Created o48) as A48.
  { rewrite F16. eapply attempt_created; eauto;
      rewrite lookup_insert_ne by done; try done.
    apply Hfree. unfold icon_paths. by right; left. }
  assert (fs (after48 E w)
          = <["dist/icon48.png" := File o48]>
              (<["dist/icon16.png" := File o16]> (fs w))) as F48.
  { by rewrite fs_after48, A48, F16. }
  assert (attempt_of E 128 "dist/icon128.png" (fs (after48 E w)) = Created o128)
    as A128.
  { rewrite F48. eapply attempt_created; eauto;
      rewrite !lookup_insert_ne by done; try done.
    apply Hfree. unfold icon_paths. by right; right; left. }
  rewrite icons_and_report_eq, A16, A48, A128. cbn [attempt_ok andb].
  unfold log. f_equal. f_equal.
  - by rewrite fs_after128, A128, F48.
  - rewrite trace_after128, A16, A48, A128. simpl. by rewrite <- !app_assoc.
Qed.

(** With the source in place and no regular file named [dist], the
    script comes down to lines 44-53, started with [dist] a directory. *)
Lemma script_present_reaches w n :
  fs w !! FAVICON_SOURCE = Some n →
  (∀ c, fs w !! "dist" ≠ Some (File c)) →
  ∃ w0, script E w = icons_and_report E w0 ∧ fs w0 = <["dist" := Dir]> (fs w).
Proof.
  intros Hs Hd. rewrite script_after_makedirs.
  destruct (fs w !! "dist") as [[c|]|] eqn:Hdist; [by destruct (Hd c)| |].
  - rewrite (main_block_present _ n) by done. eexists. split; [reflexivity|].
    simpl. by rewrite insert_id.
  - rewrite (main_block_present _ n) by (simpl; by rewrite lookup_insert_ne).
    eexists. split; [reflexivity|]. done.
Qed.

(** A run that ends with status 0 on a source that was in place has put
    at each icon path the rendering of the source's bytes. *)
Lemma script_success_icons w n :
  fs w !! FAVICON_SOURCE = Some n →
  exit_status (fst (script E w)) = 0 →
  ∃ content r16 o16 r48 o48 r128 o128,
    n = File content
    ∧ render E content 16 = Some (r16, o16)
    ∧ render E content 48 = Some (r48, o48)
    ∧ render E content 128 = Some (r128, o128)
    ∧ fs (snd (script E w)) !! "dist/icon16.png" = Some (File o16)
    ∧ fs (snd (script E w)) !! "dist/icon48.png" = Some (File o48)
    ∧ fs (snd (script E w)) !! "dist/icon128.png" = Some (File o128).
Proof.
  intros Hs Hz.
  assert (∀ c, fs w !! "dist" ≠ Some (File c)) as Hd.
  { intros c Hc. rewrite script_after_makedirs, Hc in Hz. discriminate. }
  destruct (script_present_reaches w n Hs Hd) as (w0 & Hscript & Hw0).
  rewrite Hscript in *. rewrite icons_and_report_fs.
  rewrite icons_and_report_eq in Hz.
  assert (fs w0 !! FAVICON_SOURCE = Some n) as Hs0.
  { rewrite Hw0. by rewrite lookup_insert_ne. }
  destruct (attempt_of E 16 "dist/icon16.png" (fs w0)) as [o16|] eqn:A16;
    [|discriminate].
  destruct (attempt_of E 48 "dist/icon48.png" (fs (after16 E w0))) as [o48|] eqn:A48;
    [|discriminate].
  destruct (attempt_of E 128 "dist/icon128.png" (fs (after48 E w0))) as [o128|] eqn:A128;
    [|discriminate].
  destruct (attempt_created_inv _ _ _ _ A16) as (c16 & r16 & Hc16 & R16).
  destruct (attempt_created_inv _ _ _ _ A48) as (c48 & r48 & Hc48 & R48).
  destruct (attempt_created_inv _ _ _ _ A128) as (c128 & r128 & Hc128 & R128).
  rewrite fs_after16_other in Hc48 by done.
  rewrite fs_after48_other in Hc128 by done.
  assert (c48 = c16) as -> by congruence.
  assert (c128 = c16) as -> by congruence.
  exists c16, r16, o16, r48, o48, r128, o128.
  split; [congruence|]. do 3 (split; [done|]).
  rewrite fs_after128, A128, fs_after48, A48, fs_after16, A16. simpl.
  rewrite !lookup_insert_ne by done. rewrite lookup_insert_eq.
  rewrite lookup_insert_ne by done. rewrite !lookup_insert_eq. done.
Qed.

End Phases.

(** ** The claims *)

(** Which paths are in normal form, on a few examples. *)
Example canonical_examples :
  canonical "dist/icon16.png" = true
  ∧ canonical "anava-favicon-source.png" = true
  ∧ canonical "dist" = true
  ∧ canonical "" = false
  ∧ canonical "dist//icon16.png" = false
  ∧ canonical "./anava-favicon-source.png" = false
  ∧ canonical "dist/../dist/icon16.png" = false
  ∧ canonical "dist/" = false
  ∧ canonical "/tmp/icon16.png" = false.
Proof. vm_compute. done. Qed.

(** Two runs of the model, to fix ideas: the favicon in an otherwise
    empty directory, and an empty file in its place. *)
Example run_with_source :
  exit_status (fst (script Toy.offline Toy.with_source)) = 0
  ∧ prints (issued (script Toy.offline) Toy.with_source) =
      ["✓ Created dist/icon16.png (16x16)";
       "✓ Created dist/icon48.png (48x48)";
       "✓ Created dist/icon128.png (128x128)";
       "✓ All icons created successfully from Anava favicon!"].
Proof. vm_compute. done. Qed.

Example run_with_corrupt_source :
  exit_status (fst (script Toy.offline Toy.corrupt_source)) = 1
  ∧ prints (issued (script Toy.offline) Toy.corrupt_source) =
      ["❌ Failed to create dist/icon16.png: cannot identify image file";
       "❌ Failed to create dist/icon48.png: cannot identify image file";
       "❌ Failed to create dist/icon128.png: cannot identify image file";
       "❌ Some icons failed to create"].
Proof. vm_compute. done. Qed.




(** What that call does instead. *)
Example call_on_ascii_console :
  fst (create_icon_from_favicon_on Toy.offline ascii_stdout 16 "dist/icon16.png" Toy.ready)
    = Raise (Exception "UnicodeEncodeError"
               "'ascii' codec can't encode character: ordinal not in range(128)")
  ∧ fs (snd (create_icon_from_favicon_on Toy.offline ascii_stdout 16 "dist/icon16.png"
               Toy.ready)) !! "dist/icon16.png"
    = Some (File (x89 :: x50 :: x4e :: x47 :: repeat x2a 16)).
Proof. vm_compute. done. Qed.



(** C1. The process exits with status 0 exactly when the script reaches
    the three resize operations and each of the three calls returns
    [True]; it exits with status 1 otherwise.  The flag the verdict is
    taken from is the conjunction of what the three calls returned. *)
Theorem exit_status_is_conjunction (E : Env) (w : world) :
  (exit_status (fst (script E w)) = 0 ↔
   ∃ w0 w1 w2 w3,
     before_icons E w = (Ret tt, w0) ∧
     create_icon_from_favicon E 16 "dist/icon16.png" w0 = (Ret true, w1) ∧
     create_icon_from_favicon E 48 "dist/icon48.png" w1 = (Ret true, w2) ∧
     create_icon_from_favicon E 128 "dist/icon128.png" w2 = (Ret true, w3))
  ∧ (exit_status (fst (script E w)) ≠ 0 → exit_status (fst (script E w)) = 1)
  ∧ ∀ w0, ∃ r16 r48 r128 w1 w2 w3,
      create_icon_from_favicon E 16 "dist/icon16.png" w0 = (Ret r16, w1) ∧
      create_icon_from_favicon E 48 "dist/icon48.png" w1 = (Ret r48, w2) ∧
      create_icon_from_favicon E 128 "dist/icon128.png" w2 = (Ret r128, w3) ∧
      create_icons E w0 = (Ret (r16 && r48 && r128), w3) ∧
      exit_status (fst (icons_and_report E w0)) = (if r16 && r48 && r128 then 0 else 1).
Proof.
  split; [|split].
  - rewrite script_split.
    destruct (before_icons E w) as [[[]|e] w0] eqn:Hb.
    + rewrite icons_and_report_eq. split.
      * intros Hz. exists w0, (after16 E w0), (after48 E w0), (after128 E w0).
        rewrite !create_icon_eq. cbv zeta.
        fold (after16 E w0). fold (after48 E w0). fold (after128 E w0).
        destruct (attempt_ok (attempt_of E 16 _ _));
          destruct (attempt_ok (attempt_of E 48 _ _));
          destruct (attempt_ok (attempt_of E 128 _ _)); done.
      * intros (v0 & v1 & v2 & v3 & H0 & H16 & H48 & H128).
        injection H0 as <-.
        rewrite create_icon_eq in H16. injection H16 as E16 <-.
        rewrite create_icon_eq in H48. injection H48 as E48 <-.
        rewrite create_icon_eq in H128. injection H128 as E128 _.
        unfold after48, after16, attempt_world in *. simpl in *.
        by rewrite E16, E48, E128.
    + apply before_icons_raises in Hb. simpl fst. split.
      * intros Hz. rewrite Hb in Hz. discriminate.
      * intros (v0 & ? & ? & ? & ? & _). discriminate.
  - rewrite script_split.
    destruct (before_icons E w) as [[[]|e] w0] eqn:Hb.
    + rewrite icons_and_report_eq. by destruct (_ && _).
    + intros _. by apply before_icons_raises in Hb.
  - intros w0.
    exists (attempt_ok (attempt_of E 16 "dist/icon16.png" (fs w0))),
           (attempt_ok (attempt_of E 48 "dist/icon48.png" (fs (after16 E w0)))),
           (attempt_ok (attempt_of E 128 "dist/icon128.png" (fs (after48 E w0)))),
           (after16 E w0), (after48 E w0), (after128 E w0).
    rewrite create_icons_eq, icons_and_report_eq, !create_icon_eq.
    repeat split. by destruct (_ && _).
Qed.

(** C2. Each of the three calls returns normally whatever happened in
    it, starts by opening the source, ends with the line that reports
    its outcome, and hands over to the next call; a failure is reported
    with its message.  With a source that is there but cannot be opened,
    the main block makes all three attempts, reports three failures and
    exits with status 1; so does the whole script once [os.makedirs]
    has returned. *)
Theorem icons_fault_isolated (E : Env) (w : world) :
  (∃ r16 r48 r128 w1 w2 w3 new16 new48 new128,
     create_icon_from_favicon E 16 "dist/icon16.png" w = (Ret r16, w1) ∧
     trace w1 = trace w ++ new16 ∧
     attempt_reported 16 "dist/icon16.png" r16 new16 ∧
     create_icon_from_favicon E 48 "dist/icon48.png" w1 = (Ret r48, w2) ∧
     trace w2 = trace w1 ++ new48 ∧
     attempt_reported 48 "dist/icon48.png" r48 new48 ∧
     create_icon_from_favicon E 128 "dist/icon128.png" w2 = (Ret r128, w3) ∧
     trace w3 = trace w2 ++ new128 ∧
     attempt_reported 128 "dist/icon128.png" r128 new128 ∧
     create_icons E w = (Ret (r16 && r48 && r128), w3))
  ∧ (source_unreadable E (fs w) →
     opens (issued (main_block E) w)
       = [FAVICON_SOURCE; FAVICON_SOURCE; FAVICON_SOURCE]
     ∧ (∃ e16 e48 e128,
          prints (issued (main_block E) w) =
            [failed_line "dist/icon16.png" e16;
             failed_line "dist/icon48.png" e48;
             failed_line "dist/icon128.png" e128;
             "❌ Some icons failed to create"])
     ∧ exit_status (fst (main_block E w)) = 1
     ∧ ((∀ c, fs w !! "dist" ≠ Some (File c)) →
        opens (issued (script E) w)
          = [FAVICON_SOURCE; FAVICON_SOURCE; FAVICON_SOURCE]
        ∧ exit_status (fst (script E w)) = 1)).
Proof.
  split.
  - eexists _, _, _, _, _, _, _, _, _.
    rewrite create_icons_eq, create_icon_eq. cbv zeta.
    split; [reflexivity|]. split; [reflexivity|].
    split; [apply attempt_reported_of|].
    rewrite create_icon_eq. cbv zeta.
    split; [reflexivity|]. split; [reflexivity|].
    split; [apply attempt_reported_of|].
    rewrite create_icon_eq. cbv zeta.
    split; [reflexivity|]. split; [reflexivity|].
    split; [apply attempt_reported_of|]. reflexivity.
  - intros Hu.
    destruct (main_block_unreadable E w Hu) as (new & e16 & e48 & e128 & He & Ho & Hp).
    assert (issued (main_block E) w = new) as Hi.
    { apply issued_app. by rewrite He. }
    split; [by rewrite Hi|]. split; [exists e16, e48, e128; by rewrite Hi|].
    split; [by rewrite He|].
    intros Hd. unfold issued. rewrite script_after_makedirs.
    destruct (fs w !! "dist") as [[c|]|] eqn:Hdist; [by destruct (Hd c)| |].
    + destruct (main_block_unreadable E (log [EvMakedirs "dist"] w) Hu)
        as (new' & _ & _ & _ & -> & Ho' & _).
      simpl. split; [|reflexivity].
      rewrite <- app_assoc, drop_app_length. exact Ho'.
    + set (w' := {| fs := _; trace := _ |}).
      assert (source_unreadable E (fs w')) as Hu'.
      { unfold source_unreadable in *. simpl.
        rewrite lookup_insert_ne by discriminate. done. }
      destruct (main_block_unreadable E w' Hu')
        as (new' & _ & _ & _ & -> & Ho' & _).
      simpl. split; [|reflexivity].
      rewrite <- app_assoc, drop_app_length. exact Ho'.
Qed.

(** C2, run: an empty file as the source, in an otherwise empty
    directory. *)
Lemma icons_fault_isolated_witness :
  source_unreadable Toy.offline (fs Toy.corrupt_source)
  ∧ opens (issued (script Toy.offline) Toy.corrupt_source)
      = [FAVICON_SOURCE; FAVICON_SOURCE; FAVICON_SOURCE]
  ∧ exit_status (fst (script Toy.offline Toy.corrupt_source)) = 1.
Proof.
  assert (source_unreadable Toy.offline (fs Toy.corrupt_source)) as Hu.
  { unfold source_unreadable. vm_compute. done. }
  split; [exact Hu|].
  apply (proj2 (icons_fault_isolated Toy.offline Toy.corrupt_source) Hu).
  intros c. vm_compute. discriminate.
Defined.

(** C3. When the source is missing and the download fails (curl cannot
    be started, or exits with a status other than 0), the script exits
    with status 1, issues no call of any resize operation, and leaves
    every path other than the source and [dist] as it was, the three icon
    paths among them.  The main block stops right after the download:
    the existence check, the notice, the curl call and, when curl ran,
    the failure line are all it issues. *)
Theorem fetch_failure_is_fatal (E : Env) (w : world) :
  fs w !! FAVICON_SOURCE = None → fetch_failed E →
  exit_status (fst (script E w)) = 1
  ∧ Forall (λ ev, is_icon_call ev = false) (issued (script E) w)
  ∧ (∀ p, p ∈ icon_paths → fs (snd (script E w)) !! p = fs w !! p)
  ∧ (∀ p, p ≠ FAVICON_SOURCE → p ≠ "dist" → fs (snd (script E w)) !! p = fs w !! p)
  ∧ exit_status (fst (main_block E w)) = 1
  ∧ issued (main_block E) w =
      [EvExists FAVICON_SOURCE;
       EvPrint ("❌ " +:+ FAVICON_SOURCE +:+ " not found. Downloading...");
       EvSpawn curl_argv]
      ++ match curl_transfer E FAVICON_URL with
         | None => []
         | Some _ => [EvPrint "❌ Failed to download favicon"]
         end.
Proof.
  intros Hs Hf.
  assert (exit_status (fst (script E w)) = 1
          ∧ Forall (λ ev, is_icon_call ev = false) (issued (script E) w)
          ∧ ∀ p, p ≠ FAVICON_SOURCE → p ≠ "dist" →
                 fs (snd (script E w)) !! p = fs w !! p) as (H1 & H2 & H3).
  { unfold issued. rewrite script_after_makedirs.
    destruct (fs w !! "dist") as [[c|]|] eqn:Hd.
    - simpl. split; [reflexivity|]. split; [|done].
      rewrite drop_app_length. by repeat constructor.
    - destruct (main_block_fetch_failed E (log [EvMakedirs "dist"] w) Hs Hf)
        as (e & stored & -> & He & Hst).
      simpl. split; [exact He|]. split; [|intros; by apply Hst].
      rewrite <- app_assoc, drop_app_length.
      destruct (curl_transfer E FAVICON_URL); by repeat constructor.
    - set (w' := {| fs := _; trace := _ |}).
      assert (fs w' !! FAVICON_SOURCE = None) as Hs'.
      { simpl. by rewrite lookup_insert_ne. }
      destruct (main_block_fetch_failed E w' Hs' Hf) as (e & stored & -> & He & Hst).
      simpl. split; [exact He|]. split.
      + rewrite <- app_assoc, drop_app_length.
        destruct (curl_transfer E FAVICON_URL); by repeat constructor.
      + intros p Hp Hp'. rewrite Hst by done. simpl. by rewrite lookup_insert_ne. }
  destruct (main_block_fetch_failed E w Hs Hf) as (e & stored & Hm & He & Hst).
  repeat split; try done.
  - intros p Hp. destruct (icon_path_fresh p Hp). by apply H3.
  - by rewrite Hm.
  - apply issued_app. by rewrite Hm.
Qed.

(** C3, run: an empty directory and no network. *)
Lemma fetch_failure_is_fatal_witness :
  exit_status (fst (script Toy.offline Toy.empty_directory)) = 1
  ∧ Forall (λ ev, is_icon_call ev = false)
      (issued (script Toy.offline) Toy.empty_directory)
  ∧ fs (snd (script Toy.offline Toy.empty_directory)) !! "dist/icon16.png" = None
  ∧ fs (snd (script Toy.offline Toy.empty_directory)) !! "dist/icon48.png" = None
  ∧ fs (snd (script Toy.offline Toy.empty_directory)) !! "dist/icon128.png" = None.
Proof.
  assert (fs Toy.empty_directory !! FAVICON_SOURCE = None) as Hs by reflexivity.
  assert (fetch_failed Toy.offline) as Hf by (vm_compute; discriminate).
  destruct (fetch_failure_is_fatal Toy.offline Toy.empty_directory Hs Hf)
    as (H1 & H2 & _ & H3 & _).
  split; [exact H1|]. split; [exact H2|].
  rewrite !H3 by discriminate. done.
Defined.

(** C5. When the source favicon is already there, no process is ever
    started: the run issues no [subprocess.run] call, so no download. *)
Theorem no_fetch_when_source_present (E : Env) (w : world) :
  is_Some (fs w !! FAVICON_SOURCE) →
  Forall (λ ev, is_spawn ev = false) (issued (script E) w)
  ∧ ∀ argv, EvSpawn argv ∉ issued (script E) w.
Proof.
  intros [n Hs].
  assert (∀ ev, ev ∈ issued (script E) w → is_spawn ev = false) as H.
  { intros ev Hev.
    destruct (script_present_event E w n ev Hs Hev) as [-> | [-> | Hi]]; try done.
    by apply icon_phase_event_quiet. }
  split.
  - by apply Forall_forall.
  - intros argv Hin. by apply H in Hin.
Qed.

(** C5, run: the source is there and the network is down, and nothing
    notices. *)
Lemma no_fetch_when_source_present_witness :
  Forall (λ ev, is_spawn ev = false) (issued (script Toy.offline) Toy.with_source).
Proof.
  apply (no_fetch_when_source_present Toy.offline Toy.with_source).
  vm_compute. eauto.
Defined.

(** C8. When the source favicon is already there, a run leaves what is
    at its path exactly as it was, and none of the calls it issues is
    one that creates or changes that path: no download, no [save] to it.
    The main block opens it for reading three times, once for each icon. *)
Theorem source_is_read_only (E : Env) (w : world) :
  is_Some (fs w !! FAVICON_SOURCE) →
  fs (snd (script E w)) !! FAVICON_SOURCE = fs w !! FAVICON_SOURCE
  ∧ Forall (λ ev, written_path ev ≠ Some FAVICON_SOURCE) (issued (script E) w)
  ∧ fs (snd (main_block E w)) !! FAVICON_SOURCE = fs w !! FAVICON_SOURCE
  ∧ Forall (λ ev, written_path ev ≠ Some FAVICON_SOURCE) (issued (main_block E) w)
  ∧ opens (issued (main_block E) w)
      = [FAVICON_SOURCE; FAVICON_SOURCE; FAVICON_SOURCE].
Proof.
  intros [n Hs].
  assert (FAVICON_SOURCE ∉ icon_paths) as Hfresh.
  { intros H. by destruct (icon_path_fresh _ H). }
  split; [|split; [|split; [|split]]].
  - destruct (script_present_issued E w n Hs) as (w0 & H0 & _ & H).
    destruct (fs w !! "dist") as [[c|]|]; destruct H as [_ H]; rewrite H; try done.
    all: rewrite icons_and_report_fs, fs_after128_other by done; congruence.
  - apply Forall_forall. intros ev Hev.
    destruct (script_present_event E w n ev Hs Hev) as [-> | [-> | Hi]]; try done.
    by apply icon_phase_event_quiet.
  - rewrite (main_block_present E w n Hs), icons_and_report_fs.
    by rewrite fs_after128_other.
  - rewrite (main_block_present_issued E w n Hs).
    apply Forall_cons. split; [done|].
    apply Forall_forall. intros ev Hev.
    apply icon_phase_event_quiet. by eapply icons_and_report_events.
  - rewrite (main_block_present_issued E w n Hs).
    change (opens (EvExists FAVICON_SOURCE :: ?t)) with (opens t).
    apply icons_and_report_opens.
Qed.

(** C8, run: the favicon is the same four bytes after the run. *)
Lemma source_is_read_only_witness :
  fs (snd (script Toy.offline Toy.with_source)) !! FAVICON_SOURCE
    = Some (File Toy.favicon)
  ∧ opens (issued (main_block Toy.offline) Toy.with_source)
      = [FAVICON_SOURCE; FAVICON_SOURCE; FAVICON_SOURCE].
Proof.
  assert (is_Some (fs Toy.with_source !! FAVICON_SOURCE)) as Hs
    by (vm_compute; eauto).
  destruct (source_is_read_only Toy.offline Toy.with_source Hs)
    as (H1 & _ & _ & _ & H5).
  split; [|exact H5]. rewrite H1. reflexivity.
Defined.

(** C7. When the source is missing and curl exits with status 0 having
    stored the response, lines 34-41 return with the response bytes as
    the source file, having issued the existence check, the notice, one
    curl call and the confirmation, and no call of a resize operation;
    the three icons are then made from the world so reached, and the
    source still holds those bytes when the main block ends.  The same
    holds of the whole script once [os.makedirs] has returned. *)
Theorem download_precedes_resizing (E : Env) (w : world) (body : bytes) :
  fs w !! FAVICON_SOURCE = None →
  curl_transfer E FAVICON_URL = Some {| curl_exit := 0; curl_body := Some body |} →
  (∃ w0,
     ensure_source E w = (Ret tt, w0)
     ∧ fs w0 = <[FAVICON_SOURCE := File body]> (fs w)
     ∧ issued (ensure_source E) w =
         [EvExists FAVICON_SOURCE;
          EvPrint ("❌ " +:+ FAVICON_SOURCE +:+ " not found. Downloading...");
          EvSpawn curl_argv;
          EvPrint ("✓ Downloaded " +:+ FAVICON_SOURCE)]
     ∧ main_block E w = icons_and_report E w0)
  ∧ fs (snd (main_block E w)) !! FAVICON_SOURCE = Some (File body)
  ∧ ((∀ c, fs w !! "dist" ≠ Some (File c)) →
     ∃ v0,
       before_icons E w = (Ret tt, v0)
       ∧ fs v0 !! FAVICON_SOURCE = Some (File body)
       ∧ Forall (λ ev, is_icon_call ev = false) (issued (before_icons E) w)
       ∧ script E w = icons_and_report E v0).
Proof.
  intros Hs Hc.
  assert (∀ v, fs v !! FAVICON_SOURCE = None →
               ensure_source E v =
                 (Ret tt,
                  {| fs := <[FAVICON_SOURCE := File body]> (fs v);
                     trace := trace v
                       ++ [EvExists FAVICON_SOURCE;
                           EvPrint ("❌ " +:+ FAVICON_SOURCE +:+ " not found. Downloading...");
                           EvSpawn curl_argv;
                           EvPrint ("✓ Downloaded " +:+ FAVICON_SOURCE)] |})) as Hens.
  { intros v Hv. rewrite (ensure_source_absent E v Hv), Hc. reflexivity. }
  split; [|split].
  - eexists. split; [by apply Hens|]. split; [done|]. split.
    + apply issued_app. by rewrite Hens.
    + by rewrite main_block_split, Hens.
  - rewrite main_block_split, Hens, icons_and_report_fs by done.
    rewrite fs_after128_other by apply source_not_icon.
    simpl. by rewrite lookup_insert_eq.
  - intros Hd. unfold issued. rewrite script_split.
    unfold before_icons, bind. rewrite makedirs_dist.
    destruct (fs w !! "dist") as [[c|]|] eqn:Hdist; [by destruct (Hd c)| |].
    + rewrite Hens by done. eexists. split; [reflexivity|].
      simpl. split; [by rewrite lookup_insert_eq|]. split; [|done].
      rewrite <- app_assoc, drop_app_length. by repeat constructor.
    + rewrite Hens by (simpl; by rewrite lookup_insert_ne).
      eexists. split; [reflexivity|].
      simpl. split; [by rewrite lookup_insert_eq|]. split; [|done].
      rewrite <- app_assoc, drop_app_length. by repeat constructor.
Qed.

(** C7, run: an empty directory, and a network that answers. *)
Lemma download_precedes_resizing_witness :
  fs (snd (main_block Toy.online Toy.empty_directory)) !! FAVICON_SOURCE
    = Some (File Toy.favicon).
Proof.
  apply (download_precedes_resizing Toy.online Toy.empty_directory Toy.favicon);
    reflexivity.
Defined.

(** C9, refuted as stated: with a regular file named [dist] in the way,
    [os.makedirs] raises, and there is no directory [dist] after the run. *)
Lemma dist_not_a_directory_after_run :
  ¬ is_dir (fs (snd (script Toy.offline Toy.dist_is_a_file))) "dist".
Proof. vm_compute. discriminate. Qed.

(** What that run does instead: it dies on its first statement. *)
Example run_with_dist_a_file :
  script Toy.offline Toy.dist_is_a_file =
    (Raise (Exception "FileExistsError" "[Errno 17] File exists: 'dist'"),
     {| fs := {[ "dist" := File [] ]}; trace := [EvMakedirs "dist"] |}).
Proof. vm_compute. reflexivity. Qed.

(** C9, amended. Unless a regular file named [dist] is in the way,
    [os.makedirs] is the first call of the run, it returns with [dist] a
    directory before the source is looked for, and [dist] is a directory
    when the run ends, whatever the download and the icons come to. *)
Theorem dist_exists_after_run (E : Env) (w : world) :
  (∀ c, fs w !! "dist" ≠ Some (File c)) →
  is_dir (fs (snd (script E w))) "dist"
  ∧ ∃ w0,
      os_makedirs "dist" true w = (Ret tt, w0)
      ∧ is_dir (fs w0) "dist"
      ∧ trace w0 = trace w ++ [EvMakedirs "dist"]
      ∧ script E w = main_block E w0.
Proof.
  intros Hd.
  assert (∃ w0, os_makedirs "dist" true w = (Ret tt, w0)
                ∧ is_dir (fs w0) "dist"
                ∧ trace w0 = trace w ++ [EvMakedirs "dist"]
                ∧ script E w = main_block E w0) as (w0 & Hm & Hdir & Ht & Hscript).
  { rewrite script_after_makedirs, makedirs_dist. unfold is_dir.
    destruct (fs w !! "dist") as [[c|]|] eqn:Hdist; [by destruct (Hd c)| |].
    - eexists. split; [reflexivity|]. by repeat split.
    - eexists. split; [reflexivity|]. simpl. rewrite lookup_insert_eq.
      by repeat split. }
  split; [|by exists w0].
  unfold is_dir in *. rewrite Hscript, main_block_keeps; [done|done|].
  apply dist_not_icon.
Qed.

(** C9, run: no source, no network, no icon, and [dist] is there. *)
Lemma dist_exists_after_run_witness :
  is_dir (fs (snd (script Toy.offline Toy.empty_directory))) "dist".
Proof.
  apply (dist_exists_after_run Toy.offline Toy.empty_directory).
  intros c. vm_compute. discriminate.
Defined.

(** C4, refuted as stated: a source that decodes, resizes and encodes at
    all three sizes, and yet no icon file at [dist/icon16.png], because a
    directory of that name is in the way of [save]. *)
Lemma valid_source_icon_not_written :
  ¬ (valid_source Toy.offline (fs Toy.icon16_is_a_directory) →
     produces_three_icons Toy.offline Toy.icon16_is_a_directory).
Proof.
  intros H.
  assert (valid_source Toy.offline (fs Toy.icon16_is_a_directory)) as Hv.
  { exists Toy.favicon. vm_compute. eauto 10. }
  destruct (H Hv "dist/icon16.png") as [out Hout].
  - unfold icon_paths. by left.
  - vm_compute in Hout. discriminate.
Qed.

(** What that run does instead: the first save fails and is reported,
    the other two icons are made, and the status is 1. *)
Example run_with_icon16_a_directory :
  exit_status (fst (script Toy.offline Toy.icon16_is_a_directory)) = 1
  ∧ prints (issued (script Toy.offline) Toy.icon16_is_a_directory) =
      ["❌ Failed to create dist/icon16.png: [Errno 21] Is a directory: 'dist/icon16.png'";
       "✓ Created dist/icon48.png (48x48)";
       "✓ Created dist/icon128.png (128x128)";
       "❌ Some icons failed to create"].
Proof. vm_compute. done. Qed.

(** C4, amended. With a source file that Pillow decodes, resizes and
    encodes at the three sizes, no regular file named [dist] and no
    directory at an icon path, the script returns with status 0 having, for
    16, 48 and 128 in turn, opened the source, resized to the exact
    square with LANCZOS and saved as PNG to [dist/icon<size>.png]; each of
    the three paths holds the PNG encoding of the square image of its size,
    and apart from [dist] nothing else has changed. *)
Theorem icons_written_from_valid_source (E : Env) (w : world) (content : bytes)
    (r16 r48 r128 : Image) (o16 o48 o128 : bytes) :
  fs w !! FAVICON_SOURCE = Some (File content) →
  render E content 16 = Some (r16, o16) →
  render E content 48 = Some (r48, o48) →
  render E content 128 = Some (r128, o128) →
  (∀ c, fs w !! "dist" ≠ Some (File c)) →
  (∀ p, p ∈ icon_paths → fs w !! p ≠ Some Dir) →
  im_size r16 = (16, 16) ∧ im_size r48 = (48, 48) ∧ im_size r128 = (128, 128)
  ∧ pil_encode E "PNG" r16 = Encoded o16
  ∧ pil_encode E "PNG" r48 = Encoded o48
  ∧ pil_encode E "PNG" r128 = Encoded o128
  ∧ script E w =
      (Ret tt,
       {| fs := <["dist/icon128.png" := File o128]>
                  (<["dist/icon48.png" := File o48]>
                     (<["dist/icon16.png" := File o16]>
                        (<["dist" := Dir]> (fs w))));
          trace := trace w
            ++ [EvMakedirs "dist"; EvExists FAVICON_SOURCE;
                EvOpen FAVICON_SOURCE; EvResize (16, 16) LANCZOS;
                EvSave "dist/icon16.png" "PNG";
                EvPrint (created_line 16 "dist/icon16.png");
                EvOpen FAVICON_SOURCE; EvResize (48, 48) LANCZOS;
                EvSave "dist/icon48.png" "PNG";
                EvPrint (created_line 48 "dist/icon48.png");
                EvOpen FAVICON_SOURCE; EvResize (128, 128) LANCZOS;
                EvSave "dist/icon128.png" "PNG";
                EvPrint (created_line 128 "dist/icon128.png");
                EvPrint "✓ All icons created successfully from Anava favicon!"] |}).
Proof.
  intros Hs H16 H48 H128 Hd Hfree.
  assert (∀ size r o, render E content size = Some (r, o) →
                      im_size r = (size, size) ∧ pil_encode E "PNG" r = Encoded o)
    as Hrender.
  { intros size r o. unfold render.
    destruct (pil_decode E content) as [|img]; [done|].
    destruct (pil_resample E img (size, size) LANCZOS) as [|data]; [done|].
    destruct (pil_encode E "PNG" _) as [out|] eqn:He; [|done].
    intros [= <- <-]. done. }
  destruct (Hrender _ _ _ H16) as [? ?], (Hrender _ _ _ H48) as [? ?],
    (Hrender _ _ _ H128) as [? ?].
  do 6 (split; [done|]).
  rewrite script_after_makedirs.
  destruct (fs w !! "dist") as [[c|]|] eqn:Hdist; [by destruct (Hd c)| |].
  - rewrite (main_block_present E _ (File content)) by done.
    rewrite (icons_and_report_valid E _ content r16 o16 r48 o48 r128 o128);
      try done.
    simpl. rewrite <- !app_assoc. simpl.
    by rewrite (insert_id (fs w) "dist" Dir).
  - set (w' := {| fs := _; trace := _ |}).
    assert (fs w' !! FAVICON_SOURCE = Some (File content)) as Hs'.
    { simpl. by rewrite lookup_insert_ne. }
    rewrite (main_block_present E _ (File content)) by done.
    rewrite (icons_and_report_valid E _ content r16 o16 r48 o48 r128 o128);
      try done.
    + simpl. by rewrite <- !app_assoc.
    + simpl. by rewrite lookup_insert_eq.
    + intros p Hp. simpl. destruct (icon_path_fresh p Hp).
      rewrite lookup_insert_ne by done. by apply Hfree.
Qed.

(** C4, run: the four-byte favicon in an otherwise empty directory. *)
Lemma icons_written_from_valid_source_witness :
  fst (script Toy.offline Toy.with_source) = Ret tt
  ∧ map_to_list (fs (snd (script Toy.offline Toy.with_source))) ≡ₚ
      [("dist", Dir);
       (FAVICON_SOURCE, File Toy.favicon);
       ("dist/icon16.png", File (x89 :: x50 :: x4e :: x47 :: repeat x2a 16));
       ("dist/icon48.png", File (x89 :: x50 :: x4e :: x47 :: repeat x2a 48));
       ("dist/icon128.png", File (x89 :: x50 :: x4e :: x47 :: repeat x2a 128))].
Proof.
  destruct (icons_written_from_valid_source Toy.offline Toy.with_source Toy.favicon
              {| im_size := (16, 16); im_data := repeat x2a 16 |}
              {| im_size := (48, 48); im_data := repeat x2a 48 |}
              {| im_size := (128, 128); im_data := repeat x2a 128 |}
              (x89 :: x50 :: x4e :: x47 :: repeat x2a 16)
              (x89 :: x50 :: x4e :: x47 :: repeat x2a 48)
              (x89 :: x50 :: x4e :: x47 :: repeat x2a 128))
    as (_ & _ & _ & _ & _ & _ & ->).
  - reflexivity.
  - reflexivity.
  - reflexivity.
  - reflexivity.
  - intros c. vm_compute. discriminate.
  - intros p Hp. destruct (icon_path_fresh p Hp) as [H1 H2].
    unfold Toy.with_source. simpl.
    rewrite lookup_singleton_ne; done.
  - split; [reflexivity|]. vm_compute.
    apply NoDup_Permutation.
    + repeat (constructor; [rewrite ?elem_of_cons, ?elem_of_nil; intros H;
                            destruct_or?; simplify_eq|]). constructor.
    + repeat (constructor; [rewrite ?elem_of_cons, ?elem_of_nil; intros H;
                            destruct_or?; simplify_eq|]). constructor.
    + intros x. rewrite !elem_of_cons, !elem_of_nil. tauto.
Defined.

(** C6. With the source in place, running the script again on what the
    first run left gives the same file system, byte for byte at each of
    the three icon paths and everywhere else, and the same exit status.
    And two runs that both end with status 0, started from any two worlds
    holding the same source, leave the same bytes at the icon paths. *)
Theorem rerun_is_byte_identical (E : Env) (w : world) :
  is_Some (fs w !! FAVICON_SOURCE) →
  (∀ p, p ∈ icon_paths →
        fs (snd (script E (snd (script E w)))) !! p = fs (snd (script E w)) !! p)
  ∧ fs (snd (script E (snd (script E w)))) = fs (snd (script E w))
  ∧ exit_status (fst (script E (snd (script E w)))) = exit_status (fst (script E w))
  ∧ ∀ w', fs w' !! FAVICON_SOURCE = fs w !! FAVICON_SOURCE →
          exit_status (fst (script E w)) = 0 →
          exit_status (fst (script E w')) = 0 →
          ∀ p, p ∈ icon_paths →
               fs (snd (script E w')) !! p = fs (snd (script E w)) !! p.
Proof.
  intros [n Hs].
  assert (fs (snd (script E (snd (script E w)))) = fs (snd (script E w))
          ∧ exit_status (fst (script E (snd (script E w))))
            = exit_status (fst (script E w))) as [Hfs Hst].
  { destruct (fs w !! "dist") as [[c|]|] eqn:Hdist.
    - assert (script E w
              = (Raise (Exception "FileExistsError" "[Errno 17] File exists: 'dist'"),
                 log [EvMakedirs "dist"] w)) as ->.
      { by rewrite script_after_makedirs, Hdist. }
      simpl. rewrite script_after_makedirs. simpl. by rewrite Hdist.
    - destruct (script_present_reaches E w n Hs) as (w0 & Hscript & Hw0).
      { intros c. by rewrite Hdist. }
      rewrite Hscript.
      set (w1 := snd (icons_and_report E w0)).
      assert (fs w1 = fs (after128 E w0)) as Hw1 by apply icons_and_report_fs.
      destruct (script_present_reaches E w1 n) as (v & Hscript' & Hv).
      { rewrite Hw1, fs_after128_other by apply source_not_icon.
        rewrite Hw0. by rewrite lookup_insert_ne. }
      { intros c. rewrite Hw1, fs_after128_other by apply dist_not_icon.
        rewrite Hw0. by rewrite lookup_insert_eq. }
      rewrite Hscript'.
      assert (fs v = fs (after128 E w0)) as Hv'.
      { rewrite Hv, insert_id; [done|].
        rewrite Hw1, fs_after128_other by apply dist_not_icon.
        rewrite Hw0. by rewrite lookup_insert_eq. }
      destruct (icons_rerun E w0 v Hv') as (A16 & A48 & A128 & Hsame).
      split.
      + by rewrite icons_and_report_fs, Hsame, Hv'.
      + subst w1. rewrite !icons_and_report_eq, A16, A48, A128.
        by destruct (_ && _).
    - destruct (script_present_reaches E w n Hs) as (w0 & Hscript & Hw0).
      { intros c. by rewrite Hdist. }
      rewrite Hscript.
      set (w1 := snd (icons_and_report E w0)).
      assert (fs w1 = fs (after128 E w0)) as Hw1 by apply icons_and_report_fs.
      destruct (script_present_reaches E w1 n) as (v & Hscript' & Hv).
      { rewrite Hw1, fs_after128_other by apply source_not_icon.
        rewrite Hw0. by rewrite lookup_insert_ne. }
      { intros c. rewrite Hw1, fs_after128_other by apply dist_not_icon.
        rewrite Hw0. by rewrite lookup_insert_eq. }
      rewrite Hscript'.
      assert (fs v = fs (after128 E w0)) as Hv'.
      { rewrite Hv, insert_id; [done|].
        rewrite Hw1, fs_after128_other by apply dist_not_icon.
        rewrite Hw0. by rewrite lookup_insert_eq. }
      destruct (icons_rerun E w0 v Hv') as (A16 & A48 & A128 & Hsame).
      split.
      + by rewrite icons_and_report_fs, Hsame, Hv'.
      + subst w1. rewrite !icons_and_report_eq, A16, A48, A128.
        by destruct (_ && _). }
  split; [intros p _; by rewrite Hfs|]. split; [done|]. split; [done|].
  intros w' Hs' Hz Hz' p Hp.
  rewrite Hs in Hs'.
  destruct (script_success_icons E w n Hs Hz)
    as (c & r16 & o16 & r48 & o48 & r128 & o128 & -> & R16 & R48 & R128 & I16 & I48 & I128).
  destruct (script_success_icons E w' (File c) Hs' Hz')
    as (c' & q16 & u16 & q48 & u48 & q128 & u128 & [= <-] & Q16 & Q48 & Q128 & J16 & J48 & J128).
  unfold icon_paths in Hp. rewrite !elem_of_cons, elem_of_nil in Hp.
  destruct Hp as [-> | [-> | [-> | []]]]; congruence.
Qed.

(** C6, run: the favicon in an otherwise empty directory, twice. *)
Lemma rerun_is_byte_identical_witness :
  fs (snd (script Toy.offline (snd (script Toy.offline Toy.with_source))))
  = fs (snd (script Toy.offline Toy.with_source)).
Proof.
  apply (rerun_is_byte_identical Toy.offline Toy.with_source).
  vm_compute. eauto.
Defined.

(** ** Beyond the claims: more of what the code does *)

Section More.

Context (E : Env).

Lemma render_spec content size resized out :
  render E content size = Some (resized, out) →
  im_size resized = (size, size) ∧ pil_encode E "PNG" resized = Encoded out.
Proof.
  unfold render.
  destruct (pil_decode E content) as [|img]; [done|].
  destruct (pil_resample E img (size, size) LANCZOS) as [|data]; [done|].
  destruct (pil_encode E "PNG" _) as [o|] eqn:He; [|done].
  intros [= <- <-]. done.
Qed.

(** Whatever the arguments, the calls of one attempt are the open of the
    source, the resize, the save to the target and one print. *)
Lemma attempt_events_kinds size filename (f : filesystem) :
  spawns (attempt_events size filename (attempt_of E size filename f)) = []
  ∧ saves (attempt_events size filename (attempt_of E size filename f))
      ⊆ [filename].
Proof.
  unfold attempt_of. repeat case_match; simpl; split; try done; set_solver.
Qed.

End More.

(** X1. For any size and any filename in normal form: when
    [create_icon_from_favicon] returns [True], the source was a file, the
    target now holds the PNG encoding of the source resized to the square
    of that size, no other path has changed, and the call issued exactly
    an open, a LANCZOS resize, a PNG save and the line that says so. *)
Theorem create_icon_true_writes_icon (E : Env) (size : Z) (filename : string)
    (w w' : world) :
  canonical filename = true →
  create_icon_from_favicon E size filename w = (Ret true, w') →
  ∃ content resized out,
    fs w !! FAVICON_SOURCE = Some (File content)
    ∧ render E content size = Some (resized, out)
    ∧ im_size resized = (size, size)
    ∧ fs w' = <[filename := File out]> (fs w)
    ∧ trace w' =
        trace w ++ [EvOpen FAVICON_SOURCE; EvResize (size, size) LANCZOS;
                    EvSave filename "PNG"; EvPrint (created_line size filename)].
Proof.
  intros _. rewrite create_icon_eq. cbv zeta.
  destruct (attempt_of E size filename (fs w)) as [out|e calls residue] eqn:Ha;
    [|discriminate].
  intros [= <-].
  destruct (attempt_created_inv E _ _ _ _ Ha) as (content & resized & Hs & Hr).
  exists content, resized, out.
  destruct (render_spec E _ _ _ _ Hr) as [Hsize _]. done.
Qed.

(** X1, run: the 16-pixel icon, with the favicon and [dist] in place. *)
Lemma create_icon_true_writes_icon_witness :
  ∃ content resized out,
    fs Toy.ready !! FAVICON_SOURCE = Some (File content)
    ∧ render Toy.offline content 16 = Some (resized, out)
    ∧ im_size resized = (16, 16)
    ∧ fs (snd (create_icon_from_favicon Toy.offline 16 "dist/icon16.png" Toy.ready))
      = <["dist/icon16.png" := File out]> (fs Toy.ready)
    ∧ trace (snd (create_icon_from_favicon Toy.offline 16 "dist/icon16.png" Toy.ready))
      = trace Toy.ready
        ++ [EvOpen FAVICON_SOURCE; EvResize (16, 16) LANCZOS;
            EvSave "dist/icon16.png" "PNG";
            EvPrint (created_line 16 "dist/icon16.png")].
Proof.
  apply (create_icon_true_writes_icon Toy.offline 16 "dist/icon16.png" Toy.ready).
  - reflexivity.
  - vm_compute. reflexivity.
Defined.

(** X2. For any size and any filename in normal form, a call changes no
    other path in normal form, starts no process, and saves nowhere but
    to its target. *)
Theorem create_icon_touches_only_target (E : Env) (size : Z) (filename : string)
    (w : world) :
  canonical filename = true →
  (∀ p, canonical p = true → p ≠ filename →
        fs (snd (create_icon_from_favicon E size filename w)) !! p = fs w !! p)
  ∧ spawns (issued (create_icon_from_favicon E size filename) w) = []
  ∧ saves (issued (create_icon_from_favicon E size filename) w) ⊆ [filename].
Proof.
  intros _.
  assert (issued (create_icon_from_favicon E size filename) w
          = attempt_events size filename (attempt_of E size filename (fs w))) as ->.
  { apply issued_app. by rewrite create_icon_eq. }
  split; [|apply attempt_events_kinds].
  intros p _ Hp. rewrite create_icon_eq. simpl. by apply attempt_fs_other.
Qed.

(** X2, run: the 48-pixel icon is made, and the 16-pixel one of an
    earlier call is as it was. *)
Lemma create_icon_touches_only_target_witness :
  fs (snd (create_icon_from_favicon Toy.offline 48 "dist/icon48.png"
             (snd (create_icon_from_favicon Toy.offline 16 "dist/icon16.png" Toy.ready))))
    !! "dist/icon16.png"
  = fs (snd (create_icon_from_favicon Toy.offline 16 "dist/icon16.png" Toy.ready))
      !! "dist/icon16.png".
Proof.
  apply (create_icon_touches_only_target Toy.offline 48 "dist/icon48.png").
  - reflexivity.
  - reflexivity.
  - discriminate.
Defined.

(** X5. The three calls do not depend on each other: in the sequence of
    lines 45-47 each call returns what it would return run alone from the
    world before the first, and leaves at its icon path what it would
    leave run alone. *)
Theorem icons_do_not_depend_on_each_other (E : Env) (w : world) :
  ∃ b16 b48 b128,
    fst (create_icon_from_favicon E 16 "dist/icon16.png" w) = Ret b16
    ∧ fst (create_icon_from_favicon E 48 "dist/icon48.png" w) = Ret b48
    ∧ fst (create_icon_from_favicon E 128 "dist/icon128.png" w) = Ret b128
    ∧ fst (create_icons E w) = Ret (b16 && b48 && b128)
    ∧ fs (snd (create_icons E w)) !! "dist/icon16.png"
      = fs (snd (create_icon_from_favicon E 16 "dist/icon16.png" w)) !! "dist/icon16.png"
    ∧ fs (snd (create_icons E w)) !! "dist/icon48.png"
      = fs (snd (create_icon_from_favicon E 48 "dist/icon48.png" w)) !! "dist/icon48.png"
    ∧ fs (snd (create_icons E w)) !! "dist/icon128.png"
      = fs (snd (create_icon_from_favicon E 128 "dist/icon128.png" w)) !! "dist/icon128.png".
Proof.
  assert (attempt_of E 48 "dist/icon48.png" (fs (after16 E w))
          = attempt_of E 48 "dist/icon48.png" (fs w)) as A48.
  { apply (attempt_of_local E 48 "dist/icon48.png" "dist"); [reflexivity|..];
      by apply fs_after16_other. }
  assert (attempt_of E 128 "dist/icon128.png" (fs (after48 E w))
          = attempt_of E 128 "dist/icon128.png" (fs w)) as A128.
  { apply (attempt_of_local E 128 "dist/icon128.png" "dist"); [reflexivity|..];
      by apply fs_after48_other. }
  exists (attempt_ok (attempt_of E 16 "dist/icon16.png" (fs w))),
         (attempt_ok (attempt_of E 48 "dist/icon48.png" (fs w))),
         (attempt_ok (attempt_of E 128 "dist/icon128.png" (fs w))).
  rewrite create_icons_eq, !create_icon_eq. cbv zeta. cbn [fst snd].
  do 3 (split; [reflexivity|]). split; [by rewrite A48, A128|].
  rewrite fs_after128, A128, fs_after48, A48, fs_after16.
  unfold attempt_world. cbn [fs].
  split; [|split].
  - by rewrite !attempt_fs_other by done.
  - rewrite attempt_fs_other by done.
    destruct (attempt_of E 48 "dist/icon48.png" (fs w)) as [o|e c [r|]]; simpl;
      rewrite ?lookup_insert_eq; try done.
    by rewrite attempt_fs_other by done.
  - destruct (attempt_of E 128 "dist/icon128.png" (fs w)) as [o|e c [r|]]; simpl;
      rewrite ?lookup_insert_eq; try done.
    by rewrite !attempt_fs_other by done.
Qed.

Section Whole.

Context (E : Env).

Lemma spawns_app (t1 t2 : list event) : spawns (t1 ++ t2) = spawns t1 ++ spawns t2.
Proof. apply omap_app. Qed.

Lemma prints_app (t1 t2 : list event) : prints (t1 ++ t2) = prints t1 ++ prints t2.
Proof. apply omap_app. Qed.

Lemma saves_app (t1 t2 : list event) : saves (t1 ++ t2) = saves t1 ++ saves t2.
Proof. apply omap_app. Qed.

(** Past [os.makedirs], the script is the main block. *)
Lemma script_reaches_main w :
  (∀ c, fs w !! "dist" ≠ Some (File c)) →
  script E w = main_block E (dist_made w).
Proof.
  intros Hd. rewrite script_after_makedirs. unfold dist_made, log.
  destruct (fs w !! "dist") as [[c|]|] eqn:Hdist; [by destruct (Hd c)| |done].
  by rewrite insert_id.
Qed.

Lemma script_stops_at_makedirs w c :
  fs w !! "dist" = Some (File c) →
  script E w =
    (Raise (Exception "FileExistsError" "[Errno 17] File exists: 'dist'"),
     log [EvMakedirs "dist"] w).
Proof. intros H. by rewrite script_after_makedirs, H. Qed.

(** The main block with the source missing, case by case. *)
Lemma main_block_absent v :
  fs v !! FAVICON_SOURCE = None →
  main_block E v =
    let asked :=
      [EvExists FAVICON_SOURCE;
       EvPrint ("❌ " +:+ FAVICON_SOURCE +:+ " not found. Downloading...");
       EvSpawn curl_argv] in
    match curl_transfer E FAVICON_URL with
    | None =>
        (Raise (Exception "FileNotFoundError" "[Errno 2] No such file or directory: 'curl'"),
         log asked v)
    | Some t =>
        let stored :=
          match curl_body t with
          | Some body => <[FAVICON_SOURCE := File body]> (fs v)
          | None => fs v
          end in
        if curl_exit t =? 0
        then icons_and_report E
               {| fs := stored;
                  trace := trace v ++ asked
                             ++ [EvPrint ("✓ Downloaded " +:+ FAVICON_SOURCE)] |}
        else (Raise (SystemExit 1),
              {| fs := stored;
                 trace := trace v ++ asked ++ [EvPrint "❌ Failed to download favicon"] |})
    end.
Proof.
  intros Hs. rewrite main_block_split, (ensure_source_absent E v Hs). cbv zeta.
  destruct (curl_transfer E FAVICON_URL) as [t|]; [|done].
  by destruct (curl_exit t =? 0).
Qed.

(** What the main block issues, by the same cases. *)
Lemma main_block_issued v :
  issued (main_block E) v =
    match fs v !! FAVICON_SOURCE with
    | Some _ =>
        EvExists FAVICON_SOURCE
        :: issued (icons_and_report E) (log [EvExists FAVICON_SOURCE] v)
    | None =>
        [EvExists FAVICON_SOURCE;
         EvPrint ("❌ " +:+ FAVICON_SOURCE +:+ " not found. Downloading...");
         EvSpawn curl_argv]
        ++ match curl_transfer E FAVICON_URL with
           | None => []
           | Some t =>
               if curl_exit t =? 0
               then EvPrint ("✓ Downloaded " +:+ FAVICON_SOURCE)
                    :: issued (icons_and_report E)
                         {| fs := match curl_body t with
                                  | Some body => <[FAVICON_SOURCE := File body]> (fs v)
                                  | None => fs v
                                  end;
                            trace := trace v
                              ++ [EvExists FAVICON_SOURCE;
                                  EvPrint ("❌ " +:+ FAVICON_SOURCE
                                           +:+ " not found. Downloading...");
                                  EvSpawn curl_argv]
                              ++ [EvPrint ("✓ Downloaded " +:+ FAVICON_SOURCE)] |}
               else [EvPrint "❌ Failed to download favicon"]
           end
    end.
Proof.
  destruct (fs v !! FAVICON_SOURCE) as [n|] eqn:Hs.
  - by apply main_block_present_issued with n.
  - unfold issued at 1. rewrite (main_block_absent v Hs). cbv zeta.
    destruct (curl_transfer E FAVICON_URL) as [t|].
    + destruct (curl_exit t =? 0).
      * rewrite trace_grows_icons. cbn [trace].
        rewrite <- !app_assoc, drop_app_length. reflexivity.
      * cbn [snd trace]. by rewrite drop_app_length.
    + unfold log. cbn [snd trace]. by rewrite drop_app_length, app_nil_r.
Qed.

Lemma main_block_grows v :
  trace (snd (main_block E v)) = trace v ++ issued (main_block E) v.
Proof.
  rewrite main_block_issued.
  destruct (fs v !! FAVICON_SOURCE) as [n|] eqn:Hs.
  - rewrite (main_block_present E v n Hs), trace_grows_icons.
    unfold log at 1. cbn [trace]. by rewrite <- app_assoc.
  - rewrite (main_block_absent v Hs). cbv zeta.
    destruct (curl_transfer E FAVICON_URL) as [t|].
    + destruct (curl_exit t =? 0).
      * rewrite trace_grows_icons. cbn [trace]. by rewrite <- !app_assoc.
      * reflexivity.
    + unfold log. cbn [snd trace]. by rewrite app_nil_r.
Qed.

(** What the whole script issues. *)
Lemma script_issued w :
  issued (script E) w =
    match fs w !! "dist" with
    | Some (File _) => [EvMakedirs "dist"]
    | _ => EvMakedirs "dist" :: issued (main_block E) (dist_made w)
    end.
Proof.
  unfold issued at 1.
  destruct (fs w !! "dist") as [[c|]|] eqn:Hd.
  - rewrite (script_stops_at_makedirs w c Hd). unfold log. cbn [snd trace].
    by rewrite drop_app_length.
  - rewrite script_reaches_main by (intros c; by rewrite Hd).
    rewrite main_block_grows. unfold dist_made at 1. cbn [trace].
    by rewrite <- app_assoc, drop_app_length.
  - rewrite script_reaches_main by (intros c; by rewrite Hd).
    rewrite main_block_grows. unfold dist_made at 1. cbn [trace].
    by rewrite <- app_assoc, drop_app_length.
Qed.

(** Lines 44-53 start no process. *)
Lemma icons_and_report_spawns v :
  spawns (issued (icons_and_report E) v) = [].
Proof.
  destruct (icons_and_report_trace E v) as [verdict Ht].
  rewrite (issued_app _ _ _ Ht), !spawns_app.
  rewrite !(proj1 (attempt_events_kinds E _ _ _)). reflexivity.
Qed.

(** Lines 44-53 end with the verdict, which says what the status is. *)
Lemma icons_and_report_verdict v :
  last (prints (issued (icons_and_report E) v)) =
    Some (if decide (exit_status (fst (icons_and_report E v)) = 0)
          then all_created_line
          else "❌ Some icons failed to create").
Proof.
  destruct (icons_and_report_trace E v) as [verdict Ht].
  rewrite (issued_app _ _ _ Ht), !prints_app, !app_assoc.
  change (prints [EvPrint verdict]) with [verdict]. rewrite last_snoc.
  f_equal. revert Ht. rewrite icons_and_report_eq.
  destruct (_ && _); unfold log; cbn [fst snd trace];
    rewrite trace_after128, !app_assoc; intros Ht;
    apply app_inj_tail in Ht as [_ [= <-]].
  - by rewrite decide_True.
  - by rewrite decide_False.
Qed.

End Whole.

Section WholeRuns.

Context (E : Env).

Lemma spawns_cons_quiet ev (t : list event) :
  is_spawn ev = false → spawns (ev :: t) = spawns t.
Proof. by destruct ev. Qed.

Lemma prints_cons_quiet ev (t : list event) :
  (∀ line, ev ≠ EvPrint line) → prints (ev :: t) = prints t.
Proof. intros H. destruct ev; try done. by destruct (H line). Qed.

Lemma main_block_spawns v :
  spawns (issued (main_block E) v) =
    match fs v !! FAVICON_SOURCE with
    | Some _ => []
    | None => [curl_argv]
    end.
Proof.
  rewrite main_block_issued.
  destruct (fs v !! FAVICON_SOURCE) as [n|].
  - rewrite spawns_cons_quiet by done. apply icons_and_report_spawns.
  - rewrite spawns_app.
    destruct (curl_transfer E FAVICON_URL) as [t|]; [|reflexivity].
    destruct (curl_exit t =? 0); [|reflexivity].
    rewrite (spawns_cons_quiet (EvPrint _)) by done.
    by rewrite icons_and_report_spawns.
Qed.

Lemma script_spawns w :
  spawns (issued (script E) w) =
    match fs w !! "dist", fs w !! FAVICON_SOURCE with
    | Some (File _), _ => []
    | _, Some _ => []
    | _, None => [curl_argv]
    end.
Proof.
  rewrite script_issued.
  destruct (fs w !! "dist") as [[c|]|] eqn:Hd; [reflexivity| |].
  all: rewrite spawns_cons_quiet by done.
  all: rewrite main_block_spawns; unfold dist_made; cbn [fs].
  all: rewrite lookup_insert_ne by done.
  all: by destruct (fs w !! FAVICON_SOURCE).
Qed.

Lemma main_block_verdict v :
  exit_status (fst (main_block E v)) = 0 ↔
  last (prints (issued (main_block E) v)) = Some all_created_line.
Proof.
  assert (∀ u, exit_status (fst (icons_and_report E u)) = 0 ↔
               last (prints (issued (icons_and_report E) u)) = Some all_created_line)
    as Hicons.
  { intros u. rewrite icons_and_report_verdict.
    destruct (decide _) as [Hz|Hz]; split; intros H; try done;
      injection H as H; discriminate H. }
  rewrite main_block_issued.
  destruct (fs v !! FAVICON_SOURCE) as [n|] eqn:Hs.
  - rewrite (main_block_present E v n Hs).
    rewrite prints_cons_quiet by done. apply Hicons.
  - rewrite (main_block_absent E v Hs). cbv zeta.
    destruct (curl_transfer E FAVICON_URL) as [t|].
    + destruct (curl_exit t =? 0).
      * rewrite prints_app, last_app.
        change (prints (EvPrint ?l :: ?t)) with (l :: prints t).
        rewrite last_cons. rewrite Hicons.
        destruct (last (prints (issued (icons_and_report E) _))); [done|].
        split; [done|]. intros H. injection H as H. discriminate H.
      * split; intros H; [discriminate H|].
        vm_compute in H. discriminate H.
    + split; intros H; [discriminate H|].
      vm_compute in H. discriminate H.
Qed.

(** With a corrupt or unreadable source no attempt reaches [save] or
    changes the file system. *)
Lemma attempt_unreadable_quiet (f : filesystem) size filename :
  source_unreadable E f →
  saves (attempt_events size filename (attempt_of E size filename f)) = []
  ∧ attempt_fs filename (attempt_of E size filename f) f = f.
Proof.
  unfold source_unreadable, attempt_of.
  destruct (f !! FAVICON_SOURCE) as [[content|]|]; [|done..].
  destruct (pil_decode E content) as [msg|img]; [done|].
  intros H. by destruct (H size) as [msg ->].
Qed.

Lemma icons_and_report_unreadable v :
  source_unreadable E (fs v) →
  saves (issued (icons_and_report E) v) = []
  ∧ fs (snd (icons_and_report E v)) = fs v.
Proof.
  intros Hu.
  destruct (attempt_unreadable_quiet (fs v) 16 "dist/icon16.png" Hu) as [S16 F16].
  assert (fs (after16 E v) = fs v) as E16 by (by rewrite fs_after16).
  destruct (attempt_unreadable_quiet (fs v) 48 "dist/icon48.png" Hu) as [S48 F48].
  assert (fs (after48 E v) = fs v) as E48 by (by rewrite fs_after48, E16).
  destruct (attempt_unreadable_quiet (fs v) 128 "dist/icon128.png" Hu) as [S128 F128].
  split.
  - destruct (icons_and_report_trace E v) as [verdict Ht].
    rewrite (issued_app _ _ _ Ht), !saves_app, E16, E48, S16, S48, S128.
    reflexivity.
  - by rewrite icons_and_report_fs, fs_after128, E48.
Qed.

(** Run again on what lines 44-53 left, the script changes nothing and
    ends as they did. *)
Lemma rerun_after_icons v0 n :
  fs v0 !! FAVICON_SOURCE = Some n → fs v0 !! "dist" = Some Dir →
  fs (snd (script E (snd (icons_and_report E v0))))
    = fs (snd (icons_and_report E v0))
  ∧ exit_status (fst (script E (snd (icons_and_report E v0))))
    = exit_status (fst (icons_and_report E v0)).
Proof.
  intros Hs Hd.
  set (w1 := snd (icons_and_report E v0)).
  assert (fs w1 = fs (after128 E v0)) as Hw1 by apply icons_and_report_fs.
  destruct (script_present_reaches E w1 n) as (v & Hscript & Hv).
  { by rewrite Hw1, fs_after128_other by apply source_not_icon. }
  { intros c. by rewrite Hw1, fs_after128_other, Hd by apply dist_not_icon. }
  rewrite Hscript.
  assert (fs v = fs (after128 E v0)) as Hv'.
  { rewrite Hv, insert_id; [done|].
    by rewrite Hw1, fs_after128_other by apply dist_not_icon. }
  destruct (icons_rerun E v0 v Hv') as (A16 & A48 & A128 & Hsame).
  split.
  - by rewrite icons_and_report_fs, Hsame, Hv'.
  - subst w1. rewrite !icons_and_report_eq, A16, A48, A128.
    by destruct (_ && _).
Qed.

End WholeRuns.

(** X3. Whatever the download and the icons come to, a run leaves every
    path other than [dist], the source and the three icon paths exactly
    as it was. *)
Theorem run_touches_only_its_own_paths (E : Env) (w : world) (p : string) :
  p ≠ "dist" → p ≠ FAVICON_SOURCE → p ∉ icon_paths →
  fs (snd (script E w)) !! p = fs w !! p.
Proof.
  intros Hd Hs Hi.
  destruct (fs w !! "dist") as [[c|]|] eqn:Hdist.
  - by rewrite (script_stops_at_makedirs E w c Hdist).
  - rewrite script_reaches_main by (intros c; by rewrite Hdist).
    rewrite main_block_keeps by done. unfold dist_made. cbn [fs].
    by rewrite lookup_insert_ne.
  - rewrite script_reaches_main by (intros c; by rewrite Hdist).
    rewrite main_block_keeps by done. unfold dist_made. cbn [fs].
    by rewrite lookup_insert_ne.
Qed.

(** X3, run: a download and three icons later, [manifest.json] is as
    absent as before. *)
Lemma run_touches_only_its_own_paths_witness :
  fs (snd (script Toy.online Toy.empty_directory)) !! "manifest.json"
  = fs Toy.empty_directory !! "manifest.json".
Proof.
  apply (run_touches_only_its_own_paths Toy.online Toy.empty_directory "manifest.json").
  - discriminate.
  - discriminate.
  - unfold icon_paths. rewrite !not_elem_of_cons. repeat split; try discriminate.
    apply not_elem_of_nil.
Defined.

Lemma saves_cons_quiet ev (t : list event) :
  (∀ filename fmt, ev ≠ EvSave filename fmt) → saves (ev :: t) = saves t.
Proof. intros H. destruct ev; try done. by destruct (H filename fmt). Qed.

Lemma main_block_unreadable_quiet (E : Env) (v : world) :
  source_unreadable E (fs v) →
  saves (issued (main_block E) v) = []
  ∧ fs (snd (main_block E v)) = fs v
  ∧ exit_status (fst (main_block E v)) = 1.
Proof.
  intros Hu.
  assert (∃ n, fs v !! FAVICON_SOURCE = Some n) as [n Hn].
  { unfold source_unreadable in Hu.
    destruct (fs v !! FAVICON_SOURCE); [eauto|done]. }
  destruct (icons_and_report_unreadable E (log [EvExists FAVICON_SOURCE] v) Hu)
    as [Hsaves Hfs].
  destruct (main_block_unreadable E v Hu) as (new & _ & _ & _ & Hm & _).
  split; [|split].
  - rewrite main_block_issued, Hn. by rewrite saves_cons_quiet.
  - by rewrite (main_block_present E v n Hn), Hfs.
  - by rewrite Hm.
Qed.

(** X4. With a source that is there but corrupt or unreadable, a run
    never calls [save] and changes no path but [dist]: icons of an
    earlier run stay as they are.  The status is 1. *)
Theorem corrupt_source_spares_the_icons (E : Env) (w : world) :
  source_unreadable E (fs w) →
  saves (issued (script E) w) = []
  ∧ (∀ p, p ≠ "dist" → fs (snd (script E w)) !! p = fs w !! p)
  ∧ exit_status (fst (script E w)) = 1.
Proof.
  intros Hu. rewrite script_issued.
  destruct (fs w !! "dist") as [[c|]|] eqn:Hdist.
  { rewrite (script_stops_at_makedirs E w c Hdist). by repeat split. }
  all: rewrite script_reaches_main by (intros c; by rewrite Hdist).
  all: assert (source_unreadable E (fs (dist_made w))) as Hu'
         by (unfold source_unreadable, dist_made in *; cbn [fs];
             by rewrite lookup_insert_ne).
  all: destruct (main_block_unreadable_quiet E (dist_made w) Hu')
         as (Hsaves & Hfs & Hst).
  all: split; [by rewrite saves_cons_quiet|].
  all: split; [|exact Hst].
  all: intros p Hp; rewrite Hfs; unfold dist_made; cbn [fs];
         by rewrite lookup_insert_ne.
Qed.

(** X4, run: an empty file as the source. *)
Lemma corrupt_source_spares_the_icons_witness :
  saves (issued (script Toy.offline) Toy.corrupt_source) = []
  ∧ exit_status (fst (script Toy.offline Toy.corrupt_source)) = 1.
Proof.
  assert (source_unreadable Toy.offline (fs Toy.corrupt_source)) as Hu
    by (unfold source_unreadable; vm_compute; done).
  destruct (corrupt_source_spares_the_icons Toy.offline Toy.corrupt_source Hu)
    as (H1 & _ & H3).
  by split.
Defined.

(** X6. The console and the exit status agree: the status is 0 exactly
    when the last line the run printed is the one that says all icons
    were created. *)
Theorem verdict_line_matches_exit_status (E : Env) (w : world) :
  exit_status (fst (script E w)) = 0 ↔
  last (prints (issued (script E) w)) = Some all_created_line.
Proof.
  rewrite script_issued.
  destruct (fs w !! "dist") as [[c|]|] eqn:Hdist.
  - rewrite (script_stops_at_makedirs E w c Hdist). by split.
  - rewrite script_reaches_main by (intros c; by rewrite Hdist).
    apply main_block_verdict.
  - rewrite script_reaches_main by (intros c; by rewrite Hdist).
    apply main_block_verdict.
Qed.

(** X7. A run starts at most one process, and only ever
    [curl -s https://anava.ai/favicon.ico -o anava-favicon-source.png]:
    it does so exactly when [os.makedirs] returned and nothing is at the
    source path (a directory there counts as something). *)
Theorem only_process_is_the_download (E : Env) (w : world) :
  spawns (issued (script E) w) =
    match fs w !! "dist", fs w !! FAVICON_SOURCE with
    | Some (File _), _ => []
    | _, Some _ => []
    | _, None =>
        [["curl"; "-s"; "https://anava.ai/favicon.ico"; "-o";
          "anava-favicon-source.png"]]
    end.
Proof. apply script_spawns. Qed.

(** X8. The return code is all the script checks of the download.  When
    nothing is at the source path and curl exits 0 without having stored
    a file, the run still prints that it downloaded the favicon, makes
    all three attempts, each of which fails because the file is not
    there, and exits with status 1 having created nothing but [dist]. *)
Theorem zero_exit_without_a_file (E : Env) (w : world) :
  fs w !! FAVICON_SOURCE = None →
  curl_transfer E FAVICON_URL = Some {| curl_exit := 0; curl_body := None |} →
  (∀ c, fs w !! "dist" ≠ Some (File c)) →
  exit_status (fst (script E w)) = 1
  ∧ fs (snd (script E w)) = <["dist" := Dir]> (fs w)
  ∧ prints (issued (script E) w) =
      ["❌ anava-favicon-source.png not found. Downloading...";
       "✓ Downloaded anava-favicon-source.png";
       "❌ Failed to create dist/icon16.png: [Errno 2] No such file or directory: 'anava-favicon-source.png'";
       "❌ Failed to create dist/icon48.png: [Errno 2] No such file or directory: 'anava-favicon-source.png'";
       "❌ Failed to create dist/icon128.png: [Errno 2] No such file or directory: 'anava-favicon-source.png'";
       "❌ Some icons failed to create"].
Proof.
  intros Hs Hc Hd.
  assert (fs (dist_made w) !! FAVICON_SOURCE = None) as Hs'.
  { unfold dist_made. cbn [fs]. by rewrite lookup_insert_ne. }
  assert (∀ size filename (f : filesystem),
            f !! FAVICON_SOURCE = None →
            attempt_of E size filename f =
              Failed ("[Errno 2] No such file or directory: '" +:+ FAVICON_SOURCE +:+ "'")
                [] None) as Hgone.
  { intros size filename f Hf. unfold attempt_of. by rewrite Hf. }
  assert (script E w =
            (Raise (SystemExit 1),
             {| fs := <["dist" := Dir]> (fs w);
                trace := trace w ++
                  [EvMakedirs "dist"; EvExists FAVICON_SOURCE;
                   EvPrint "❌ anava-favicon-source.png not found. Downloading...";
                   EvSpawn curl_argv;
                   EvPrint "✓ Downloaded anava-favicon-source.png";
                   EvOpen FAVICON_SOURCE;
                   EvPrint "❌ Failed to create dist/icon16.png: [Errno 2] No such file or directory: 'anava-favicon-source.png'";
                   EvOpen FAVICON_SOURCE;
                   EvPrint "❌ Failed to create dist/icon48.png: [Errno 2] No such file or directory: 'anava-favicon-source.png'";
                   EvOpen FAVICON_SOURCE;
                   EvPrint "❌ Failed to create dist/icon128.png: [Errno 2] No such file or directory: 'anava-favicon-source.png'";
                   EvPrint "❌ Some icons failed to create"] |})) as Hrun.
  { rewrite script_reaches_main by done.
    rewrite (main_block_absent E _ Hs'), Hc. cbv zeta. cbn [curl_exit curl_body Z.eqb].
    rewrite icons_and_report_eq.
    unfold after128, after48, after16, attempt_world, log. cbn [fs trace].
    rewrite (Hgone 16 "dist/icon16.png") by done. cbn [attempt_fs].
    rewrite (Hgone 48 "dist/icon48.png") by done. cbn [attempt_fs].
    rewrite (Hgone 128 "dist/icon128.png") by done.
    cbn [attempt_fs attempt_ok attempt_events andb fs trace].
    unfold dist_made. cbn [fs trace]. rewrite <- !app_assoc. reflexivity. }
  split; [by rewrite Hrun|]. split; [by rewrite Hrun|].
  erewrite issued_app; [|by rewrite Hrun]. reflexivity.
Qed.

(** X8, run: an empty directory and a curl that exits 0 empty-handed. *)
Lemma zero_exit_without_a_file_witness :
  exit_status (fst (script Toy.empty_reply Toy.empty_directory)) = 1
  ∧ fs (snd (script Toy.empty_reply Toy.empty_directory)) = {[ "dist" := Dir ]}.
Proof.
  destruct (zero_exit_without_a_file Toy.empty_reply Toy.empty_directory)
    as (H1 & H2 & _).
  - reflexivity.
  - reflexivity.
  - intros c. vm_compute. discriminate.
  - split; [exact H1|]. rewrite H2. reflexivity.
Defined.

(** X9. What a download stores stays.  When nothing is at the source
    path, [os.makedirs] returns and curl stores bytes there, whatever
    its exit status, those bytes are the source file when the run ends,
    and the next run starts no process: it never fetches again, even
    after a transfer that broke off. *)
Theorem stored_download_is_never_refetched (E : Env) (w : world) (t : transfer)
    (body : bytes) :
  fs w !! FAVICON_SOURCE = None →
  (∀ c, fs w !! "dist" ≠ Some (File c)) →
  curl_transfer E FAVICON_URL = Some t →
  curl_body t = Some body →
  spawns (issued (script E) w) = [curl_argv]
  ∧ fs (snd (script E w)) !! FAVICON_SOURCE = Some (File body)
  ∧ spawns (issued (script E) (snd (script E w))) = [].
Proof.
  intros Hs Hd Hc Hb.
  assert (fs (snd (script E w)) !! FAVICON_SOURCE = Some (File body)) as Hafter.
  { rewrite script_reaches_main by done.
    assert (fs (dist_made w) !! FAVICON_SOURCE = None) as Hs'.
    { unfold dist_made. cbn [fs]. by rewrite lookup_insert_ne. }
    rewrite (main_block_absent E _ Hs'), Hc, Hb. cbv zeta.
    destruct (curl_exit t =? 0).
    - rewrite icons_and_report_fs, fs_after128_other by apply source_not_icon.
      cbn [fs]. by rewrite lookup_insert_eq.
    - cbn [snd fs]. by rewrite lookup_insert_eq. }
  split; [|split; [exact Hafter|]].
  - rewrite script_spawns, Hs.
    destruct (fs w !! "dist") as [[c|]|] eqn:Hdist; [by destruct (Hd c)|done..].
  - rewrite script_spawns, Hafter. by repeat case_match.
Qed.

(** X9, run: two bytes arrive before the transfer breaks off; the
    second run works on those two bytes. *)
Lemma stored_download_is_never_refetched_witness :
  spawns (issued (script Toy.cut_off) Toy.empty_directory) = [curl_argv]
  ∧ fs (snd (script Toy.cut_off Toy.empty_directory)) !! FAVICON_SOURCE
    = Some (File [x00; x00])
  ∧ spawns (issued (script Toy.cut_off) (snd (script Toy.cut_off Toy.empty_directory)))
    = [].
Proof.
  apply (stored_download_is_never_refetched Toy.cut_off Toy.empty_directory
           {| curl_exit := 18; curl_body := Some [x00; x00] |} [x00; x00]).
  - reflexivity.
  - intros c. vm_compute. discriminate.
  - reflexivity.
  - reflexivity.
Defined.

(** X10. Download and resize compose.  When nothing is at the source
    path, curl exits 0 having stored bytes that Pillow decodes, resizes
    and encodes at the three sizes, [dist] is not a regular file and no
    directory sits at an icon path, the run ends with status 0 and the
    file system is the old one with [dist], the downloaded source and
    the three icons rendered from the downloaded bytes. *)
Theorem downloaded_favicon_becomes_icons (E : Env) (w : world) (body : bytes)
    (r16 r48 r128 : Image) (o16 o48 o128 : bytes) :
  fs w !! FAVICON_SOURCE = None →
  curl_transfer E FAVICON_URL = Some {| curl_exit := 0; curl_body := Some body |} →
  render E body 16 = Some (r16, o16) →
  render E body 48 = Some (r48, o48) →
  render E body 128 = Some (r128, o128) →
  (∀ c, fs w !! "dist" ≠ Some (File c)) →
  (∀ p, p ∈ icon_paths → fs w !! p ≠ Some Dir) →
  exit_status (fst (script E w)) = 0
  ∧ fs (snd (script E w)) =
      <["dist/icon128.png" := File o128]>
        (<["dist/icon48.png" := File o48]>
           (<["dist/icon16.png" := File o16]>
              (<[FAVICON_SOURCE := File body]> (<["dist" := Dir]> (fs w))))).
Proof.
  intros Hs Hc H16 H48 H128 Hd Hfree.
  assert (fs (dist_made w) !! FAVICON_SOURCE = None) as Hs'.
  { unfold dist_made. cbn [fs]. by rewrite lookup_insert_ne. }
  rewrite script_reaches_main by done.
  rewrite (main_block_absent E _ Hs'), Hc. cbv zeta. cbn [curl_exit curl_body Z.eqb].
  rewrite (icons_and_report_valid E _ body r16 o16 r48 o48 r128 o128); try done.
  - cbn [fs]. by rewrite lookup_insert_eq.
  - unfold dist_made. cbn [fs].
    rewrite lookup_insert_ne by done. by rewrite lookup_insert_eq.
  - intros p Hp. destruct (icon_path_fresh p Hp). unfold dist_made. cbn [fs].
    rewrite !lookup_insert_ne by done. by apply Hfree.
Qed.

(** X10, run: an empty directory and a network that answers. *)
Lemma downloaded_favicon_becomes_icons_witness :
  exit_status (fst (script Toy.online Toy.empty_directory)) = 0
  ∧ fs (snd (script Toy.online Toy.empty_directory)) !! "dist/icon48.png"
    = Some (File (x89 :: x50 :: x4e :: x47 :: repeat x2a 48)).
Proof.
  destruct (downloaded_favicon_becomes_icons Toy.online Toy.empty_directory Toy.favicon
              {| im_size := (16, 16); im_data := repeat x2a 16 |}
              {| im_size := (48, 48); im_data := repeat x2a 48 |}
              {| im_size := (128, 128); im_data := repeat x2a 128 |}
              (x89 :: x50 :: x4e :: x47 :: repeat x2a 16)
              (x89 :: x50 :: x4e :: x47 :: repeat x2a 48)
              (x89 :: x50 :: x4e :: x47 :: repeat x2a 128))
    as [H1 H2].
  - reflexivity.
  - reflexivity.
  - reflexivity.
  - reflexivity.
  - reflexivity.
  - intros c. vm_compute. discriminate.
  - intros p Hp. vm_compute. discriminate.
  - split; [exact H1|]. rewrite H2.
    rewrite lookup_insert_ne by discriminate. by rewrite lookup_insert_eq.
Defined.

(** X11. A run that downloaded the source is as repeatable as one that
    found it: when nothing is at the source path, [os.makedirs] returns
    and curl exits 0 having stored the response, running the script
    again on what the run left changes nothing in the file system, ends
    with the same status and starts no process. *)
Theorem rerun_after_download_changes_nothing (E : Env) (w : world) (body : bytes) :
  fs w !! FAVICON_SOURCE = None →
  curl_transfer E FAVICON_URL = Some {| curl_exit := 0; curl_body := Some body |} →
  (∀ c, fs w !! "dist" ≠ Some (File c)) →
  fs (snd (script E (snd (script E w)))) = fs (snd (script E w))
  ∧ exit_status (fst (script E (snd (script E w)))) = exit_status (fst (script E w))
  ∧ spawns (issued (script E) (snd (script E w))) = [].
Proof.
  intros Hs Hc Hd.
  assert (fs (dist_made w) !! FAVICON_SOURCE = None) as Hs'.
  { unfold dist_made. cbn [fs]. by rewrite lookup_insert_ne. }
  assert (∃ v0, script E w = icons_and_report E v0
                ∧ fs v0 !! FAVICON_SOURCE = Some (File body)
                ∧ fs v0 !! "dist" = Some Dir) as (v0 & Hrun & Hv0 & Hdist).
  { eexists. split.
    - rewrite script_reaches_main by done.
      rewrite (main_block_absent E _ Hs'), Hc. cbv zeta.
      cbn [curl_exit curl_body Z.eqb]. reflexivity.
    - cbn [fs]. split; [by rewrite lookup_insert_eq|].
      unfold dist_made. cbn [fs].
      rewrite lookup_insert_ne by done. by rewrite lookup_insert_eq. }
  rewrite Hrun.
  destruct (rerun_after_icons E v0 (File body) Hv0 Hdist) as [Hfs Hst].
  split; [exact Hfs|]. split; [exact Hst|].
  rewrite script_spawns.
  rewrite icons_and_report_fs, !fs_after128_other
    by (apply source_not_icon || apply dist_not_icon).
  by rewrite Hv0, Hdist.
Qed.

(** X11, run: download once, run twice. *)
Lemma rerun_after_download_changes_nothing_witness :
  fs (snd (script Toy.online (snd (script Toy.online Toy.empty_directory))))
  = fs (snd (script Toy.online Toy.empty_directory)).
Proof.
  apply (rerun_after_download_changes_nothing Toy.online Toy.empty_directory Toy.favicon).
  - reflexivity.
  - reflexivity.
  - intros c. vm_compute. discriminate.
Defined.
